(** * CT quality-control evaluation rules of [streamlit_app.py]

    A shallow embedding of the evaluation logic of the Streamlit
    application: dosimetry, beam collimation, CT number accuracy, low
    contrast resolution, CT number uniformity, spatial resolution and the
    control-chart analysis of the trending page.

    Conventions of the embedding.
    - A Python [float] is an exact rational ([Q]); comparisons are the
      exact ones, rounding of arithmetic is not part of the model.
    - A Python [dict] used as a table or as the session store is a
      [gmap string _]; [d[k]] is [dict_index] (it raises [KeyError]),
      [d.get(k, v)] is [dict_get].
    - Code that can raise returns an [outcome]; [a / b] on a variable
      divisor is [py_div] (it raises [ZeroDivisionError]).
    - Each section function is modelled from the point where its button
      has been pressed; the widgets' values are the function's inputs and
      what the page shows or stores is its result.  Text formatting of
      the tables (f-strings) is left out: a row keeps the numbers. *)

From Stdlib Require Import QArith Qabs Qminmax Lqa.
From stdpp Require Import gmap strings.

Open Scope Q_scope.

(** ** Python values and operators *)

Inductive exn : Type :=
| KeyError (key : string)
| IndexError
| NameError (name : string)
| ValueError
| ZeroDivisionError.

Inductive outcome (A : Type) : Type :=
| Ok (a : A)
| Raise (e : exn).

Arguments Ok {A} a.
Arguments Raise {A} e.

#[global] Instance outcome_ret : MRet outcome := fun A a => Ok a.

#[global] Instance outcome_bind : MBind outcome := fun A B k c =>
  match c with
  | Ok a => k a
  | Raise e => Raise e
  end.

(** [a <= b], [a < b], [a >= b], [a > b], [a != b] on numbers. *)
Definition py_le (a b : Q) : bool := Qle_bool a b.
Definition py_lt (a b : Q) : bool := negb (Qle_bool b a).
Definition py_ge (a b : Q) : bool := py_le b a.
Definition py_gt (a b : Q) : bool := py_lt b a.
Definition py_ne (a b : Q) : bool := negb (Qeq_bool a b).

(** [a / b]: true division; a zero divisor raises. *)
Definition py_div (a b : Q) : outcome Q :=
  if Qeq_bool b 0 then Raise ZeroDivisionError else Ok (a / b).

(** [d[k]] and [d.get(k, dflt)]. *)
Definition dict_index {V : Type} (d : gmap string V) (k : string) : outcome V :=
  match d !! k with
  | Some v => Ok v
  | None => Raise (KeyError k)
  end.

Definition dict_get {V : Type} (d : gmap string V) (k : string) (dflt : V) : V :=
  match d !! k with
  | Some v => v
  | None => dflt
  end.

(** [l[i]] on a list, [max(l)] and [min(l)]; [max] and [min] keep the
    first of equal items. *)
Definition list_index {A : Type} (l : list A) (i : nat) : outcome A :=
  match l !! i with
  | Some x => Ok x
  | None => Raise IndexError
  end.

Definition py_max (l : list Q) : outcome Q :=
  match l with
  | [] => Raise ValueError
  | x :: rest => Ok (fold_left Qmax rest x)
  end.

Definition py_min (l : list Q) : outcome Q :=
  match l with
  | [] => Raise ValueError
  | x :: rest => Ok (fold_left Qmin rest x)
  end.

(** [True] counts as 1 in [sum([...])]. *)
Definition py_sum_bool (l : list bool) : Z :=
  fold_left (fun acc (b : bool) => (acc + (if b then 1 else 0))%Z) l 0%Z.

(** The status texts of the result tables and banners. *)
Inductive Status : Type :=
| Pass                  (* "Pass" (green) *)
| Fail                  (* "Fail" (red) *)
| Monitor               (* "Monitor" (yellow) *)
| PassBelowReference    (* "Pass - Below Reference" (green) *)
| MinorAboveReference   (* "Minor - Above Reference, Below P/F" (yellow) *)
| MajorFailAboveLimit.  (* "Major Fail - Above Pass/Fail Limit" (red) *)

(** ['Pass' in status] *)
Definition contains_Pass (s : Status) : bool :=
  match s with
  | Pass | PassBelowReference => true
  | _ => false
  end.

(** ** Session store: [st.session_state.qc_data] *)

Record DosimetryResult : Type := {
  r_ctdi_center : Q;
  r_ctdi_periphery : Q;
  r_ctdi_w : Q;
  r_kvp : Z;
  r_ma : Z;
  r_rotation_time : Q;
  r_mas : Q;
  r_nt : Q;
  r_pct_ref : Q;
  r_pct_pf : Q;
  r_status : Status;
  r_date : string
}.

Record CtNumberRow : Type := {
  row_material : string;
  row_measured : Q;
  row_expected : Q;
  row_difference : Q;
  row_tolerance : Q;
  row_result : Status
}.

Record CtNumberResult : Type := {
  c_measurements : list (string * Q);
  c_results : list CtNumberRow;
  c_overall_pass : bool;
  c_date : string
}.

(** A key of [qc_data] that has not been written yet is [None]. *)
Record QcData : Type := {
  dosimetry_results : option (gmap string DosimetryResult);
  ct_number_results : option (gmap string CtNumberResult)
}.

Definition qc_empty : QcData :=
  {| dosimetry_results := None; ct_number_results := None |}.

(** ** Dosimetry assessment ([dosimetry_section]) *)

Record Limit : Type := { ref : Q; pf : Q; phantom : string }.

Definition acr_limits : gmap string Limit :=
  list_to_map
    [ ("Adult Abdomen"%string, {| ref := 25; pf := 30; phantom := "32cm" |});
      ("Adult Head"%string, {| ref := 75; pf := 80; phantom := "16cm" |});
      ("Ped Abd (45lb)"%string, {| ref := 7.5; pf := 10; phantom := "32cm" |});
      ("Ped Head (1y)"%string, {| ref := 35; pf := 40; phantom := "16cm" |}) ].

Record DosimetryInput : Type := {
  protocol_type : string;
  ctdi_center : Q;
  ctdi_top : Q;
  ctdi_bottom : Q;
  ctdi_left : Q;
  ctdi_right : Q;
  kvp : Z;
  ma : Z;
  rotation_time : Q;
  n_detectors : Z;
  detector_width : Q
}.

(** [(ctdi_top + ctdi_bottom + ctdi_left + ctdi_right) / 4] *)
Definition ctdi_periphery_avg (top bottom left right : Q) : Q :=
  (top + bottom + left + right) / 4.

(** [(ctdi_center + 4 * ctdi_periphery_avg) / 5] *)
Definition ctdi_w (center periphery_avg : Q) : Q :=
  (center + 4 * periphery_avg) / 5.

(** The weighted index as a function of the five readings. *)
Definition ctdi_w_of (center top bottom left right : Q) : Q :=
  ctdi_w center (ctdi_periphery_avg top bottom left right).

(** The [if / elif / else] on [ctdi_w] against the protocol's limits. *)
Definition dosimetry_status (w : Q) (limit : Limit) : Status :=
  if py_le w (ref limit) then PassBelowReference
  else if py_le w (pf limit) then MinorAboveReference
  else MajorFailAboveLimit.

(** What the page shows after the button: the result banner, or
    [st.error("Please enter valid CTDI measurements")]. *)
Inductive DosimetryDisplay : Type :=
| Evaluated (r : DosimetryResult)
| ValidationError (msg : string).

Definition store_dosimetry (qc : QcData) (protocol : string) (r : DosimetryResult) : QcData :=
  let table :=
    match dosimetry_results qc with
    | None => ∅
    | Some t => t
    end in
  {| dosimetry_results := Some (<[protocol := r]> table);
     ct_number_results := ct_number_results qc |}.

Definition dosimetry_section (now : string) (i : DosimetryInput) (qc : QcData)
  : outcome (DosimetryDisplay * QcData) :=
  let periphery := ctdi_periphery_avg (ctdi_top i) (ctdi_bottom i) (ctdi_left i) (ctdi_right i) in
  let mas := inject_Z (ma i) * rotation_time i in
  let nt := inject_Z (n_detectors i) * detector_width i in
  if py_gt (ctdi_center i) 0 && py_gt periphery 0 then
    let w := ctdi_w (ctdi_center i) periphery in
    limit ← dict_index acr_limits (protocol_type i);
    q_ref ← py_div w (ref limit);
    let pct_ref := q_ref * 100 in
    q_pf ← py_div w (pf limit);
    let pct_pf := q_pf * 100 in
    let status := dosimetry_status w limit in
    let r := {| r_ctdi_center := ctdi_center i;
                r_ctdi_periphery := periphery;
                r_ctdi_w := w;
                r_kvp := kvp i;
                r_ma := ma i;
                r_rotation_time := rotation_time i;
                r_mas := mas;
                r_nt := nt;
                r_pct_ref := pct_ref;
                r_pct_pf := pct_pf;
                r_status := status;
                r_date := now |} in
    Ok (Evaluated r, store_dosimetry qc (protocol_type i) r)
  else
    Ok (ValidationError "Please enter valid CTDI measurements", qc).

(** ** Beam collimation ([beam_collimation_section]) *)

(** The columns of [test_data]. *)
Definition test_data_n : list Z := [4; 8; 4; 2]%Z.
Definition test_data_T : list Q := [3.75; 1.25; 1.25; 0.625].
Definition test_data_measured : list Q := [470.3; 346.5; 195.7; 45.46].
Definition test_data_nominal : list Q := [15; 10; 5; 1.25].

Record BeamRow : Type := {
  b_n : Z;
  b_T : Q;
  b_nominal_nt : Q;
  b_measured : Q;
  b_beam_width : Q;
  b_error : Q;
  b_criteria : Q;
  b_result : Status
}.

(** [measured / cal_dp_l if cal_dp_l > 0 else 0] *)
Definition beam_width_of (measured cal_dp_l : Q) : outcome Q :=
  if py_gt cal_dp_l 0 then py_div measured cal_dp_l else Ok 0.

(** One turn of the loop over [range(len(test_data['n']))]. *)
Definition beam_row (cal_dp_l : Q) (i : nat) : outcome BeamRow :=
  n ← list_index test_data_n i;
  t ← list_index test_data_T i;
  measured ← list_index test_data_measured i;
  nominal_nt ← list_index test_data_nominal i;
  beam_width ← beam_width_of measured cal_dp_l;
  let error := beam_width - nominal_nt in
  let thirty_pct := nominal_nt * 0.3 in
  let criteria := Qmax thirty_pct 3.0 in
  let pass_fail := if py_le (Qabs error) criteria then Pass else Fail in
  Ok {| b_n := n; b_T := t; b_nominal_nt := nominal_nt; b_measured := measured;
        b_beam_width := beam_width; b_error := error; b_criteria := criteria;
        b_result := pass_fail |}.

(** The rows of the table and, when there are rows, the overall banner.
    [cal_dp_l] is bound only under the first guard. *)
Definition beam_collimation_section (mask_length without_mask with_mask : Q)
  : outcome (list BeamRow * option Status) :=
  cal_dp_l ← (if py_gt without_mask 0 && py_gt with_mask 0
              then q ← py_div (without_mask - with_mask) mask_length; Ok (Some q)
              else Ok None);
  results ← (if py_gt without_mask 0 && py_gt with_mask 0 && py_gt mask_length 0
             then match cal_dp_l with
                  | Some slope => mapM (beam_row slope) (seq 0 (length test_data_n))
                  | None => Raise (NameError "cal_dp_l")
                  end
             else Ok []);
  match results with
  | [] => Ok (results, None)
  | _ :: _ =>
      let all_pass := forallb (fun result => contains_Pass (b_result result)) results in
      Ok (results, Some (if all_pass then Pass else Fail))
  end.

(** ** CT number accuracy ([ct_number_accuracy_section]) *)

Record MaterialRef : Type := { expected : Q; tolerance : Q }.

Definition materials_ref : gmap string MaterialRef :=
  list_to_map
    [ ("Air"%string, {| expected := -1000; tolerance := 100 |});
      ("Acrylic"%string, {| expected := 120; tolerance := 40 |});
      ("Water"%string, {| expected := 0; tolerance := 7 |});
      ("Bone"%string, {| expected := 850; tolerance := 100 |}) ].

Record CtNumberInput : Type := {
  ct_protocol : string;
  m_air : Q;
  m_acrylic : Q;
  m_water : Q;
  m_bone : Q
}.

(** The [measurements] dict, in insertion order. *)
Definition measurements (i : CtNumberInput) : list (string * Q) :=
  [ ("Air"%string, m_air i); ("Acrylic"%string, m_acrylic i);
    ("Water"%string, m_water i); ("Bone"%string, m_bone i) ].

(** The pass criterion of one material: water is held to 7 HU. *)
Definition ct_pass_criteria (material : string) (difference tolerance : Q) : bool :=
  if String.eqb material "Water"
  then py_le (Qabs difference) 7
  else py_le (Qabs difference) tolerance.

(** The row computed from a material's entry of the reference table. *)
Definition ct_number_entry_row (material : string) (measured_value : Q)
    (entry : MaterialRef) : CtNumberRow * bool :=
  let difference := measured_value - expected entry in
  let pass_criteria := ct_pass_criteria material difference (tolerance entry) in
  let status := if pass_criteria then Pass else Fail in
  ({| row_material := material; row_measured := measured_value;
      row_expected := expected entry; row_difference := difference;
      row_tolerance := tolerance entry; row_result := status |},
   pass_criteria).

(** The body of the loop for one material, over a reference table. *)
Definition ct_number_row (table : gmap string MaterialRef) (material : string)
    (measured_value : Q) : outcome (CtNumberRow * bool) :=
  entry ← dict_index table material;
  Ok (ct_number_entry_row material measured_value entry).

Fixpoint ct_number_loop (table : gmap string MaterialRef) (items : list (string * Q))
    (results : list CtNumberRow) (all_pass : bool) : outcome (list CtNumberRow * bool) :=
  match items with
  | [] => Ok (results, all_pass)
  | (material, measured_value) :: rest =>
      evaluated ← ct_number_row table material measured_value;
      let '(row, pass_criteria) := (evaluated : CtNumberRow * bool) in
      ct_number_loop table rest (results ++ [row])
        (if negb pass_criteria then false else all_pass)
  end.

Definition store_ct_number (qc : QcData) (protocol : string) (r : CtNumberResult) : QcData :=
  let table :=
    match ct_number_results qc with
    | None => ∅
    | Some t => t
    end in
  {| dosimetry_results := dosimetry_results qc;
     ct_number_results := Some (<[protocol := r]> table) |}.

(** The result record, the overall banner and the updated store. *)
Definition ct_number_accuracy_section (now : string) (i : CtNumberInput) (qc : QcData)
  : outcome (CtNumberResult * Status * QcData) :=
  looped ← ct_number_loop materials_ref (measurements i) [] true;
  let '(results, all_pass) := (looped : list CtNumberRow * bool) in
  let overall_status := if all_pass then Pass else Fail in
  let r := {| c_measurements := measurements i; c_results := results;
              c_overall_pass := all_pass; c_date := now |} in
  Ok (r, overall_status, store_ct_number qc (ct_protocol i) r).

(** ** Low contrast resolution ([low_contrast_resolution_section]) *)

(** The twelve check boxes of the [visibility] dict. *)
Record Visibility : Type := {
  v6mm_03 : bool; v6mm_05 : bool; v6mm_10 : bool;
  v4mm_03 : bool; v4mm_05 : bool; v4mm_10 : bool;
  v3mm_03 : bool; v3mm_05 : bool; v3mm_10 : bool;
  v2mm_03 : bool; v2mm_05 : bool; v2mm_10 : bool
}.

Record LcrInput : Type := {
  visibility : Visibility;
  lcr_protocol : string;
  signal : Q;
  noise : Q;
  noise_sd : Q
}.

Definition cnr_criteria : gmap string Q :=
  list_to_map
    [ ("Adult Head"%string, 1.0); ("Adult Abdomen"%string, 1.0);
      ("Ped Head"%string, 0.7); ("Ped Abd"%string, 0.4) ].

(** [(signal - noise) / noise_sd if noise_sd > 0 else 0] *)
Definition cnr_of (signal noise noise_sd : Q) : outcome Q :=
  if py_gt noise_sd 0 then py_div (signal - noise) noise_sd else Ok 0.

(** [cnr_criteria.get(protocol, 1.0)] *)
Definition cnr_required_of (protocol : string) : Q :=
  dict_get cnr_criteria protocol 1.0.

Record LcrResult : Type := {
  objects_6mm : Z;
  objects_4mm : Z;
  objects_3mm : Z;
  objects_2mm : Z;
  total_visible : Z;
  minimum_met : bool;
  cnr : Q;
  cnr_required : Q;
  cnr_pass : bool;
  lcr_min_status : Status;
  lcr_cnr_status : Status;
  lcr_overall_pass : bool;
  lcr_overall_status : Status
}.

Definition low_contrast_resolution_section (i : LcrInput) : outcome LcrResult :=
  let v := visibility i in
  let objects_6mm := py_sum_bool [v6mm_03 v; v6mm_05 v; v6mm_10 v] in
  let objects_4mm := py_sum_bool [v4mm_03 v; v4mm_05 v; v4mm_10 v] in
  let objects_3mm := py_sum_bool [v3mm_03 v; v3mm_05 v; v3mm_10 v] in
  let objects_2mm := py_sum_bool [v2mm_03 v; v2mm_05 v; v2mm_10 v] in
  let total_visible := (objects_6mm + objects_4mm + objects_3mm + objects_2mm)%Z in
  let minimum_met := v6mm_03 v in
  cnr ← cnr_of (signal i) (noise i) (noise_sd i);
  let cnr_required := cnr_required_of (lcr_protocol i) in
  let cnr_pass := py_ge cnr cnr_required in
  let min_status := if minimum_met then Pass else Fail in
  let cnr_status := if cnr_pass then Pass else Fail in
  let overall_pass := minimum_met && cnr_pass in
  let overall_status := if overall_pass then Pass else Fail in
  Ok {| objects_6mm := objects_6mm; objects_4mm := objects_4mm;
        objects_3mm := objects_3mm; objects_2mm := objects_2mm;
        total_visible := total_visible; minimum_met := minimum_met;
        cnr := cnr; cnr_required := cnr_required; cnr_pass := cnr_pass;
        lcr_min_status := min_status; lcr_cnr_status := cnr_status;
        lcr_overall_pass := overall_pass; lcr_overall_status := overall_status |}.

(** ** CT number uniformity ([ct_uniformity_section]) *)

Record UniformityInput : Type := {
  center_roi : Q;
  top_roi : Q;
  bottom_roi : Q;
  left_roi : Q;
  right_roi : Q
}.

(** [((roi_max - roi_min) / (roi_max + roi_min)) * 100
     if (roi_max + roi_min) != 0 else 0] *)
Definition non_uniformity_of (roi_max roi_min : Q) : outcome Q :=
  if py_ne (roi_max + roi_min) 0
  then q ← py_div (roi_max - roi_min) (roi_max + roi_min); Ok (q * 100)
  else Ok 0.

Record UniformityRow : Type := {
  u_position : string;
  u_roi_value : Q;
  u_diff : Q;
  u_status : Status
}.

Record UniformityResult : Type := {
  max_difference : Q;
  roi_max : Q;
  roi_min : Q;
  non_uniformity : Q;
  uniformity_pass : bool;
  uniformity_status : Status;
  uniformity_rows : list UniformityRow
}.

Definition ct_uniformity_section (i : UniformityInput) : outcome UniformityResult :=
  let peripheral_rois := [top_roi i; bottom_roi i; left_roi i; right_roi i] in
  let differences := map (fun roi => Qabs (roi - center_roi i)) peripheral_rois in
  max_difference ← py_max differences;
  roi_max ← py_max (center_roi i :: peripheral_rois);
  roi_min ← py_min (center_roi i :: peripheral_rois);
  non_uniformity ← non_uniformity_of roi_max roi_min;
  let uniformity_pass := py_le max_difference 5.0 in
  let status := if uniformity_pass then Pass else Fail in
  let rows :=
    map (fun '(position, roi_value) =>
           let diff := Qabs (roi_value - center_roi i) in
           {| u_position := position; u_roi_value := roi_value; u_diff := diff;
              u_status := if py_le diff 5.0 then Pass else Fail |})
        (zip ["Top"; "Bottom"; "Left"; "Right"]%string peripheral_rois) in
  Ok {| max_difference := max_difference; roi_max := roi_max; roi_min := roi_min;
        non_uniformity := non_uniformity; uniformity_pass := uniformity_pass;
        uniformity_status := status; uniformity_rows := rows |}.

(** ** Spatial resolution ([spatial_resolution_section]) *)

Record SpatialInput : Type := {
  sr_protocol : string;
  measured_resolution : Q;
  baseline_resolution : Q;
  visual_quality : string
}.

Definition criteria_map : gmap string Q :=
  list_to_map
    [ ("Adult Abdomen"%string, 6.0); ("Adult Head"%string, 6.0);
      ("Ped Abd"%string, 6.0); ("Ped Head"%string, 6.0);
      ("High Resolution Chest"%string, 8.0) ].

(** [criteria_map.get(protocol, 6.0)] *)
Definition required_resolution_of (protocol : string) : Q :=
  dict_get criteria_map protocol 6.0.

(** A row of the detailed table: the test's name and its status. *)
Record SpatialRow : Type := { s_test : string; s_status : Status }.

Record SpatialResult : Type := {
  required_resolution : Q;
  meets_minimum : bool;
  baseline_comparison : bool;
  sr_overall_pass : bool;
  sr_status : Status;
  sr_results : list SpatialRow
}.

(** [x in l] on strings. *)
Definition py_in (x : string) (l : list string) : bool :=
  existsb (String.eqb x) l.

Definition spatial_resolution_section (i : SpatialInput) : SpatialResult :=
  let required_resolution := required_resolution_of (sr_protocol i) in
  let meets_minimum := py_ge (measured_resolution i) required_resolution in
  let baseline_comparison :=
    py_le (Qabs (measured_resolution i - baseline_resolution i)) 1.0 in
  let overall_pass := meets_minimum && baseline_comparison in
  let status := if overall_pass then Pass else Fail in
  let min_status := if meets_minimum then Pass else Fail in
  let baseline_status := if baseline_comparison then Pass else Monitor in
  let visual_status :=
    if py_in (visual_quality i) ["Excellent"; "Good"]%string then Pass else Monitor in
  {| required_resolution := required_resolution;
     meets_minimum := meets_minimum;
     baseline_comparison := baseline_comparison;
     sr_overall_pass := overall_pass;
     sr_status := status;
     sr_results :=
       [ {| s_test := "Minimum Resolution"; s_status := min_status |};
         {| s_test := "Baseline Comparison"; s_status := baseline_status |};
         {| s_test := "Visual Assessment"; s_status := visual_status |} ] |}.

(** ** Data analysis and trending ([data_analysis_section]) *)

(** A row of the trending data frame. *)
Record TrendRow : Type := {
  t_date : string;
  water_ct : Q;
  t_noise : Q;
  ctdi_head : Q;
  ctdi_body : Q;
  t_uniformity : Q
}.

Definition param_map : gmap string string :=
  list_to_map
    [ ("Water CT Number", "water_ct"); ("Image Noise", "noise");
      ("Head CTDI", "ctdi_head"); ("Body CTDI", "ctdi_body");
      ("Uniformity", "uniformity") ]%string.

(** [df[y_col]], row by row. *)
Definition column (y_col : string) : outcome (TrendRow -> Q) :=
  if String.eqb y_col "water_ct" then Ok water_ct
  else if String.eqb y_col "noise" then Ok t_noise
  else if String.eqb y_col "ctdi_head" then Ok ctdi_head
  else if String.eqb y_col "ctdi_body" then Ok ctdi_body
  else if String.eqb y_col "uniformity" then Ok t_uniformity
  else Raise (KeyError y_col).

Definition series_sum (ys : list Q) : Q := fold_left Qplus ys 0.

(** [Series.mean()] of a series that is not empty. *)
Definition series_mean (ys : list Q) : Q :=
  series_sum ys / inject_Z (Z.of_nat (length ys)).

(** What [Series.std()] returns for [ys]: the non-negative [s] whose
    square is the sum of squared deviations over [len - 1]. *)
Definition is_sample_std (ys : list Q) (s : Q) : Prop :=
  0 <= s /\
  s * s * inject_Z (Z.of_nat (length ys) - 1) ==
  series_sum (map (fun y => (y - series_mean ys) * (y - series_mean ys)) ys).

(** What the chart needs of [Series.std()] to bound the number of
    out-of-control points: a non-negative [s] whose square, times
    [len - 1], is not below nine tenths of the sum of squared deviations.
    The sample standard deviation has it with equality in place of the
    nine tenths, and a value within 5 % of it has it as well. *)
Definition sample_std_lower_bound (ys : list Q) (s : Q) : Prop :=
  0 <= s /\
  (9 # 10) * series_sum (map (fun y => (y - series_mean ys) * (y - series_mean ys)) ys)
  <= s * s * inject_Z (Z.of_nat (length ys) - 1).

Inductive TrendStatus : Type :=
| Stable        (* "Stable" (green) *)
| Investigate.  (* "Investigate" (red) *)

Record ControlSummary : Type := {
  mean_val : Q;
  std_val : Q;
  ucl_3sigma : Q;
  lcl_3sigma : Q;
  ucl_2sigma : Q;
  lcl_2sigma : Q;
  out_of_control : list TrendRow;
  warning_points : list TrendRow;
  trend_status : TrendStatus
}.

(** [(y > ucl_3sigma) | (y < lcl_3sigma)] *)
Definition out_of_control_mask (ucl3 lcl3 y : Q) : bool :=
  py_gt y ucl3 || py_lt y lcl3.

(** [((y > ucl_2sigma) & (y <= ucl_3sigma)) | ((y < lcl_2sigma) & (y >= lcl_3sigma))] *)
Definition warning_mask (ucl2 lcl2 ucl3 lcl3 y : Q) : bool :=
  (py_gt y ucl2 && py_le y ucl3) || (py_lt y lcl2 && py_ge y lcl3).

Section ControlChart.

(** [Series.std()], a square root, is taken from the library. *)
Variable series_std : list Q -> Q.

Definition control_chart (y : TrendRow -> Q) (df : list TrendRow) : ControlSummary :=
  let mean_val := series_mean (map y df) in
  let std_val := series_std (map y df) in
  let ucl_3sigma := mean_val + 3 * std_val in
  let lcl_3sigma := mean_val - 3 * std_val in
  let ucl_2sigma := mean_val + 2 * std_val in
  let lcl_2sigma := mean_val - 2 * std_val in
  let out_of_control :=
    filter (fun row => out_of_control_mask ucl_3sigma lcl_3sigma (y row) = true) df in
  let warning_points :=
    filter (fun row => warning_mask ucl_2sigma lcl_2sigma ucl_3sigma lcl_3sigma (y row) = true) df in
  {| mean_val := mean_val; std_val := std_val;
     ucl_3sigma := ucl_3sigma; lcl_3sigma := lcl_3sigma;
     ucl_2sigma := ucl_2sigma; lcl_2sigma := lcl_2sigma;
     out_of_control := out_of_control;
     warning_points := warning_points;
     trend_status := if (length out_of_control =? 0)%nat then Stable else Investigate |}.

(** The analysis of the selected parameter. *)
Definition data_analysis_section (df : list TrendRow) (parameter : string)
  : outcome ControlSummary :=
  y_col ← dict_index param_map parameter;
  y ← column y_col;
  Ok (control_chart y df).

End ControlChart.

(** ** Artifacts assessment ([artifacts_section]) *)

(** The three overall banners of the artifacts page. *)
Inductive ArtifactStatus : Type :=
| ArtifactsPass    (* "Pass - No significant artifacts" (green) *)
| ArtifactsMinor   (* "Minor - Some artifacts present" (yellow) *)
| ArtifactsMajor.  (* "Major - Significant artifacts detected" (red) *)

Definition artifact_scores : gmap string Z :=
  list_to_map [ ("None", 0%Z); ("Minor", 1%Z); ("Major", 2%Z) ]%string.

Record ArtifactsInput : Type := {
  art_protocol : string;
  streaks : string;
  rings : string;
  cupping : string;
  motion : string;
  noise_variation : string;
  other_artifacts : string;
  phantom_32cm : bool;
  beyond_20cm : string;
  image_quality : string;
  clinical_impact : string
}.

Record ArtifactRow : Type := {
  a_type : string;
  a_severity : string;
  a_score : Z;
  a_impact : string
}.

Record ArtifactsResult : Type := {
  total_score : Z;
  art_overall_status : ArtifactStatus;
  art_rows : list ArtifactRow;
  art_image_quality : string;
  art_clinical_impact : string;
  art_notes : option string
}.

(** The [if / elif / else] on the total score. *)
Definition artifact_status (total_score : Z) : ArtifactStatus :=
  if (total_score =? 0)%Z then ArtifactsPass
  else if (total_score <=? 3)%Z then ArtifactsMinor
  else ArtifactsMajor.

(** One row of the results table. *)
Definition artifact_row (entry : string * string) : outcome ArtifactRow :=
  let '(artifact_type, severity) := entry in
  score ← dict_index artifact_scores severity;
  Ok {| a_type := artifact_type; a_severity := severity; a_score := score;
        a_impact := if String.eqb severity "None" then "None"
                    else if String.eqb severity "Minor" then "Low" else "High" |}.

Definition artifacts_section (i : ArtifactsInput) : outcome ArtifactsResult :=
  s_streaks ← dict_index artifact_scores (streaks i);
  s_rings ← dict_index artifact_scores (rings i);
  s_cupping ← dict_index artifact_scores (cupping i);
  s_motion ← dict_index artifact_scores (motion i);
  s_noise ← dict_index artifact_scores (noise_variation i);
  let total_score := (s_streaks + s_rings + s_cupping + s_motion + s_noise)%Z in
  let overall_status := artifact_status total_score in
  let artifacts_list :=
    [ ("Streaks/Lines", streaks i); ("Ring Artifacts", rings i);
      ("Cupping", cupping i); ("Motion Artifacts", motion i);
      ("Noise Variation", noise_variation i) ]%string in
  results ← mapM artifact_row artifacts_list;
  Ok {| total_score := total_score;
        art_overall_status := overall_status;
        art_rows := results;
        art_image_quality := image_quality i;
        art_clinical_impact := clinical_impact i;
        art_notes := if String.eqb (other_artifacts i) "" then None
                     else Some (other_artifacts i) |}.

(** The options of the five severity select boxes. *)
Definition severity_options : list string := ["None"; "Minor"; "Major"]%string.

(** The banners in the order of their colours: green, yellow, red. *)
Definition artifact_rank (status : ArtifactStatus) : Z :=
  match status with
  | ArtifactsPass => 0
  | ArtifactsMinor => 1
  | ArtifactsMajor => 2
  end.

(** The five severities of an input, in the order of the table. *)
Definition severities (i : ArtifactsInput) : list string :=
  [streaks i; rings i; cupping i; motion i; noise_variation i].

(** The artifact types that are rated, that is not "None". *)
Definition rated (i : ArtifactsInput) : list string :=
  filter (fun severity => severity <> "None"%string) (severities i).

(** One select-box severity is at most as severe as another. *)
Definition severity_le (severity severity' : string) : Prop :=
  exists score score',
    artifact_scores !! severity = Some score /\
    artifact_scores !! severity' = Some score' /\
    (score <= score')%Z.

(** ** Protocol review ([protocol_review_section]) *)

(** An entry of [protocols_data]; [pitch] may be [None]. *)
Record ProtocolData : Type := {
  pd_protocol : string;
  wed_cm : Q;
  pd_ctdi : Q;
  emas : Q;
  rotation_s : Q;
  pitch : option Q;
  acr_ref : Q;
  acr_pf : Q
}.

(** The [protocols_data] dict, in insertion order. *)
Definition protocols_data : list (string * ProtocolData) :=
  [ ("Adult Abdomen"%string,
     {| pd_protocol := "Abdomen Pelvis without"; wed_cm := 30; pd_ctdi := 18.6;
        emas := 201; rotation_s := 0.7; pitch := Some 1.375;
        acr_ref := 25; acr_pf := 30 |});
    ("Adult Head"%string,
     {| pd_protocol := "CT Head wo"; wed_cm := 18; pd_ctdi := 62.03;
        emas := 272.9; rotation_s := 0.6; pitch := Some 0.938;
        acr_ref := 75; acr_pf := 80 |});
    ("Ped Abd (45lb)"%string,
     {| pd_protocol := "CT PED ABD PELV"; wed_cm := 19; pd_ctdi := 4.42;
        emas := 47.25; rotation_s := 0.5; pitch := Some 1.375;
        acr_ref := 7.5; acr_pf := 10 |});
    ("Ped Head (1y)"%string,
     {| pd_protocol := "CT PED BRAIN"; wed_cm := 15; pd_ctdi := 25.75;
        emas := 120; rotation_s := 1.0; pitch := None;
        acr_ref := 35; acr_pf := 40 |}) ].

(** The [lambda row] of the Status column:
    [Pass if row['ctdi'] <= row['acr_pf'] else Fail]. *)
Definition protocol_status (row : ProtocolData) : Status :=
  if py_le (pd_ctdi row) (acr_pf row) then Pass else Fail.

(** [sum(1 for cat in data.values() if cond(cat))] *)
Definition py_count (cond : ProtocolData -> bool) (data : list (string * ProtocolData)) : Z :=
  fold_left (fun acc entry => if cond entry.2 then (acc + 1)%Z else acc) data 0%Z.

(** [cat['acr_ref'] < cat['ctdi'] <= cat['acr_pf']] *)
Definition is_minor_fail (cat : ProtocolData) : bool :=
  py_lt (acr_ref cat) (pd_ctdi cat) && py_le (pd_ctdi cat) (acr_pf cat).

(** [cat['ctdi'] > cat['acr_pf']] *)
Definition is_major_fail (cat : ProtocolData) : bool :=
  py_gt (pd_ctdi cat) (acr_pf cat).

Record ProtocolSummary : Type := {
  review_status : list (string * Status);
  minor_fails : Z;
  major_fails : Z;
  total_protocols : Z
}.

(** The Status column and the three metrics under the chart, over a
    table of protocols; the percentage columns and the chart, which
    pandas and plotly compute, are left out. *)
Definition protocol_review (data : list (string * ProtocolData)) : ProtocolSummary :=
  {| review_status := map (fun entry => (entry.1, protocol_status entry.2)) data;
     minor_fails := py_count is_minor_fail data;
     major_fails := py_count is_major_fail data;
     total_protocols := Z.of_nat (length data) |}.

Definition protocol_review_section : ProtocolSummary := protocol_review protocols_data.

(** The entry of a category with another aggregate CTDI value. *)
Definition with_ctdi (cat : ProtocolData) (value : Q) : ProtocolData :=
  {| pd_protocol := pd_protocol cat; wed_cm := wed_cm cat; pd_ctdi := value;
     emas := emas cat; rotation_s := rotation_s cat; pitch := pitch cat;
     acr_ref := acr_ref cat; acr_pf := acr_pf cat |}.

(** The five ROI values of an input, all raised by the same offset. *)
Definition shift_rois (i : UniformityInput) (offset : Q) : UniformityInput :=
  {| center_roi := center_roi i + offset; top_roi := top_roi i + offset;
     bottom_roi := bottom_roi i + offset; left_roi := left_roi i + offset;
     right_roi := right_roi i + offset |}.

(** ** Facility information ([facility_info_section]) and the sidebar *)

(** The initial [st.session_state.scanner_info]. *)
Definition initial_scanner_info : gmap string string :=
  list_to_map
    [ ("facility", "University of Tennessee Medical Center");
      ("address", "601 S Hall of Fame Dr, Knoxville, TN 37915");
      ("manufacturer", "GE");
      ("model", "Brightspeed");
      ("serial", "14285HM8");
      ("location", "CT");
      ("physicist1", "D. Osborne");
      ("physicist2", "");
      ("xray_license", "647-1384") ]%string.

(** The values of the form; the two dates are given by their
    [isoformat()] text. *)
Record FacilityForm : Type := {
  f_facility : string;
  f_address : string;
  f_location : string;
  f_xray_license : string;
  f_manufacturer : string;
  f_model : string;
  f_serial : string;
  f_install_date : string;
  f_physicist1 : string;
  f_physicist2 : string;
  f_inspector_num : string;
  f_survey_date : string
}.

(** [scanner_info.update({...})] on pressing the save button. *)
Definition facility_info_section (form : FacilityForm) (scanner_info : gmap string string)
  : gmap string string :=
  <["survey_date"%string := f_survey_date form]>
  (<["inspector_num"%string := f_inspector_num form]>
  (<["physicist2"%string := f_physicist2 form]>
  (<["physicist1"%string := f_physicist1 form]>
  (<["install_date"%string := f_install_date form]>
  (<["serial"%string := f_serial form]>
  (<["model"%string := f_model form]>
  (<["manufacturer"%string := f_manufacturer form]>
  (<["xray_license"%string := f_xray_license form]>
  (<["location"%string := f_location form]>
  (<["address"%string := f_address form]>
  (<["facility"%string := f_facility form]> scanner_info))))))))))).

(** The four lines of scanner information in the sidebar of [main]. *)
Definition sidebar_scanner_info (scanner_info : gmap string string) : outcome (list string) :=
  facility ← dict_index scanner_info "facility";
  manufacturer ← dict_index scanner_info "manufacturer";
  model ← dict_index scanner_info "model";
  serial ← dict_index scanner_info "serial";
  physicist ← dict_index scanner_info "physicist1";
  Ok [ ("**Facility:** " ++ facility)%string;
       ("**System:** " ++ manufacturer ++ " " ++ model)%string;
       ("**Serial:** " ++ serial)%string;
       ("**Physicist:** " ++ physicist)%string ].

(** The scanner information after a number of saves, oldest first. *)
Definition after_saves (forms : list FacilityForm) : gmap string string :=
  fold_left (fun info form => facility_info_section form info) forms initial_scanner_info.

(** ** The data summary of the sidebar *)

(** [len(st.session_state.qc_data)]: the sections that have stored
    results. *)
Definition sections_completed (qc : QcData) : Z :=
  ((match dosimetry_results qc with Some _ => 1 | None => 0 end) +
   (match ct_number_results qc with Some _ => 1 | None => 0 end))%Z.

(** What the store holds for a protocol:
    [qc_data.get('dosimetry_results', {}).get(protocol)], and the same
    for the CT number results. *)
Definition stored_dosimetry (qc : QcData) (protocol : string) : option DosimetryResult :=
  match dosimetry_results qc with
  | Some table => table !! protocol
  | None => None
  end.

Definition stored_ct_number (qc : QcData) (protocol : string) : option CtNumberResult :=
  match ct_number_results qc with
  | Some table => table !! protocol
  | None => None
  end.

(** ** Concrete inputs used below *)

(** Centre and top readings entered, the other three left at 0. *)
Definition partial_reading_input : DosimetryInput :=
  {| protocol_type := "Adult Abdomen";
     ctdi_center := 18; ctdi_top := 72; ctdi_bottom := 0; ctdi_left := 0; ctdi_right := 0;
     kvp := 120; ma := 300; rotation_time := 0.7; n_detectors := 16; detector_width := 1.25 |}.

(** All five readings at 18 mGy. *)
Definition uniform_reading_input : DosimetryInput :=
  {| protocol_type := "Adult Abdomen";
     ctdi_center := 18; ctdi_top := 18; ctdi_bottom := 18; ctdi_left := 18; ctdi_right := 18;
     kvp := 120; ma := 300; rotation_time := 0.7; n_detectors := 16; detector_width := 1.25 |}.

(** Resolution above the minimum, two lp/cm away from the baseline. *)
Definition off_baseline_input : SpatialInput :=
  {| sr_protocol := "Adult Abdomen"; measured_resolution := 7;
     baseline_resolution := 9; visual_quality := "Good" |}.

(** Resolution above the minimum and on the baseline, pattern only fair. *)
Definition fair_pattern_input : SpatialInput :=
  {| sr_protocol := "Adult Abdomen"; measured_resolution := 7;
     baseline_resolution := 7; visual_quality := "Fair" |}.

(** Nominal readings for air, acrylic and bone, water at 10 HU. *)
Definition water_ten_input : CtNumberInput :=
  {| ct_protocol := "Adult Head"; m_air := -1000; m_acrylic := 120;
     m_water := 10; m_bone := 850 |}.

(** A reference table whose water entry lists a looser tolerance. *)
Definition loose_water_table : gmap string MaterialRef :=
  <["Water"%string := {| expected := 0; tolerance := 40 |}]> materials_ref.

(** A protocol name that neither criteria table lists. *)
Definition unlisted_protocol : string := "Cardiac".

Definition all_visible : Visibility :=
  {| v6mm_03 := true; v6mm_05 := true; v6mm_10 := true;
     v4mm_03 := true; v4mm_05 := true; v4mm_10 := true;
     v3mm_03 := true; v3mm_05 := true; v3mm_10 := true;
     v2mm_03 := true; v2mm_05 := true; v2mm_10 := true |}.

Definition only_6mm_03_visible : Visibility :=
  {| v6mm_03 := true; v6mm_05 := false; v6mm_10 := false;
     v4mm_03 := false; v4mm_05 := false; v4mm_10 := false;
     v3mm_03 := false; v3mm_05 := false; v3mm_10 := false;
     v2mm_03 := false; v2mm_05 := false; v2mm_10 := false |}.

(** The widgets' default signal and noise values, for a given protocol
    and set of check boxes. *)
Definition lcr_input (v : Visibility) (protocol : string) : LcrInput :=
  {| visibility := v; lcr_protocol := protocol;
     signal := 95.0; noise := 89.0; noise_sd := 6.0 |}.

Definition unlisted_spatial_input : SpatialInput :=
  {| sr_protocol := unlisted_protocol; measured_resolution := 7;
     baseline_resolution := 7; visual_quality := "Good" |}.

(** Eleven weekly water readings: one at 30 HU, five at -2 and five at
    -4.  Their mean is 0 and their sample standard deviation is 10, so
    the first reading sits exactly on the upper 3-sigma limit. *)
Definition trend_row (v : Q) : TrendRow :=
  {| t_date := "2025-01-05"; water_ct := v; t_noise := 3.5;
     ctdi_head := 62; ctdi_body := 19; t_uniformity := 2 |}.

Definition boundary_series : list TrendRow :=
  map trend_row [30; -2; -2; -2; -2; -2; -4; -4; -4; -4; -4].

Definition boundary_std (ys : list Q) : Q := 10.



(** Nine weekly water readings: one at 8 HU and eight at -1.  Their mean
    is 0 and their sample standard deviation is 3, so the 3-sigma limits
    are -9 and 9. *)
Definition outlier_series : list TrendRow :=
  map trend_row [8; -1; -1; -1; -1; -1; -1; -1; -1].

Definition outlier_std (ys : list Q) : Q := 3.

(** Sixteen weekly water readings: one at 15 HU and fifteen at -1.  Their
    mean is 0 and their sample standard deviation is 4, so the first
    reading lies above the upper 3-sigma limit of 12. *)
Definition spike_series : list TrendRow :=
  map trend_row [15; -1; -1; -1; -1; -1; -1; -1; -1; -1; -1; -1; -1; -1; -1; -1].

Definition spike_std (ys : list Q) : Q := 4.

(** * Properties *)

(** ** The comparison operators *)

Lemma py_le_true (a b : Q) : py_le a b = true <-> a <= b.
Proof. apply Qle_bool_iff. Qed.

Lemma py_le_false (a b : Q) : py_le a b = false <-> b < a.
Proof.
  unfold py_le. rewrite <- not_true_iff_false, Qle_bool_iff.
  split; [apply Qnot_le_lt | apply Qlt_not_le].
Qed.

Lemma py_lt_true (a b : Q) : py_lt a b = true <-> a < b.
Proof. unfold py_lt. rewrite negb_true_iff. apply py_le_false. Qed.

Lemma py_lt_false (a b : Q) : py_lt a b = false <-> b <= a.
Proof. unfold py_lt. rewrite negb_false_iff. apply py_le_true. Qed.

Lemma py_gt_true (a b : Q) : py_gt a b = true <-> b < a.
Proof. apply py_lt_true. Qed.

Lemma py_gt_false (a b : Q) : py_gt a b = false <-> a <= b.
Proof. apply py_lt_false. Qed.

Lemma py_ge_true (a b : Q) : py_ge a b = true <-> b <= a.
Proof. apply py_le_true. Qed.

Lemma py_ge_false (a b : Q) : py_ge a b = false <-> a < b.
Proof. apply py_le_false. Qed.

Lemma py_ne_true (a b : Q) : py_ne a b = true <-> ~ a == b.
Proof.
  unfold py_ne. rewrite negb_true_iff, <- not_true_iff_false, Qeq_bool_iff. tauto.
Qed.

Lemma py_ne_false (a b : Q) : py_ne a b = false <-> a == b.
Proof. unfold py_ne. rewrite negb_false_iff. apply Qeq_bool_iff. Qed.

(** Case analysis on the comparisons of a goal, leaving the order facts
    among the hypotheses. *)
Ltac py_case :=
  match goal with
  | |- context [py_le ?a ?b] =>
      let E := fresh "E" in
      destruct (py_le a b) eqn:E;
      [apply py_le_true in E | apply py_le_false in E]
  | |- context [py_lt ?a ?b] =>
      let E := fresh "E" in
      destruct (py_lt a b) eqn:E;
      [apply py_lt_true in E | apply py_lt_false in E]
  | |- context [py_gt ?a ?b] =>
      let E := fresh "E" in
      destruct (py_gt a b) eqn:E;
      [apply py_gt_true in E | apply py_gt_false in E]
  | |- context [py_ge ?a ?b] =>
      let E := fresh "E" in
      destruct (py_ge a b) eqn:E;
      [apply py_ge_true in E | apply py_ge_false in E]
  | |- context [py_ne ?a ?b] =>
      let E := fresh "E" in
      destruct (py_ne a b) eqn:E;
      [apply py_ne_true in E | apply py_ne_false in E]
  end.

(** The two-valued status of a boolean verdict. *)
Lemma pass_or_fail_is_pass (b : bool) : (if b then Pass else Fail) = Pass <-> b = true.
Proof. destruct b; split; intros; try reflexivity; discriminate. Qed.

Lemma pass_or_fail_is_fail (b : bool) : (if b then Pass else Fail) = Fail <-> b = false.
Proof. destruct b; split; intros; try reflexivity; discriminate. Qed.

(** Division by a positive integer literal. *)
Lemma Qdiv_literal (a : Q) (p : positive) : a / (Zpos p # 1) == a * (1 # p).
Proof. reflexivity. Qed.

Lemma py_div_nonzero (a b : Q) : ~ b == 0 -> py_div a b = Ok (a / b).
Proof.
  intros Hb. unfold py_div.
  destruct (Qeq_bool b 0) eqn:E; [| reflexivity].
  apply Qeq_bool_iff in E. contradiction.
Qed.

Lemma py_div_zero (a b : Q) : b == 0 -> py_div a b = Raise ZeroDivisionError.
Proof. intros Hb. unfold py_div. apply Qeq_bool_iff in Hb. now rewrite Hb. Qed.

(** ** Dosimetry *)

(** Every protocol of the table has a positive reference limit below its
    pass/fail limit. *)
Lemma acr_limits_entry (protocol : string) (limit : Limit) :
  acr_limits !! protocol = Some limit -> 0 < ref limit /\ ref limit < pf limit.
Proof.
  unfold acr_limits. simpl. intros H.
  repeat (rewrite lookup_insert in H; case_decide;
          [inversion H; subst; simpl; split; reflexivity |]).
  rewrite lookup_empty in H. discriminate.
Qed.

(** The three-way classification against a pair of limits. *)
Lemma dosimetry_status_spec (w : Q) (limit : Limit) :
  ref limit < pf limit ->
  (dosimetry_status w limit = PassBelowReference <-> w <= ref limit) /\
  (dosimetry_status w limit = MinorAboveReference <-> ref limit < w <= pf limit) /\
  (dosimetry_status w limit = MajorFailAboveLimit <-> pf limit < w).
Proof.
  intros Hlim. unfold dosimetry_status.
  repeat py_case; repeat split; intros; try discriminate; try reflexivity; lra.
Qed.

(** The limits of the adult abdomen protocol: 25 and 30 mGy. *)
Example dosimetry_status_adult_abdomen :
  map (fun w => dosimetry_status w {| ref := 25; pf := 30; phantom := "32cm" |})
      [24; 25; 27; 30; 31] =
  [PassBelowReference; PassBelowReference; MinorAboveReference; MinorAboveReference;
   MajorFailAboveLimit].
Proof. reflexivity. Qed.

(** With a zero or missing centre reading, or a zero peripheral mean, the
    page shows the validation error and the store is left as it was. *)
Lemma dosimetry_section_rejects (now : string) (i : DosimetryInput) (qc : QcData) :
  ctdi_center i <= 0 \/
  ctdi_periphery_avg (ctdi_top i) (ctdi_bottom i) (ctdi_left i) (ctdi_right i) <= 0 ->
  dosimetry_section now i qc =
    Ok (ValidationError "Please enter valid CTDI measurements", qc).
Proof.
  intros H. unfold dosimetry_section.
  destruct H as [H | H]; apply py_gt_false in H; rewrite H;
    [reflexivity | now rewrite andb_false_r].
Qed.

(** With a positive centre reading and a positive peripheral mean the
    evaluation goes through for every protocol of the table. *)
Lemma dosimetry_section_evaluates (now : string) (i : DosimetryInput) (qc : QcData)
    (limit : Limit) :
  acr_limits !! protocol_type i = Some limit ->
  0 < ctdi_center i ->
  0 < ctdi_periphery_avg (ctdi_top i) (ctdi_bottom i) (ctdi_left i) (ctdi_right i) ->
  exists r,
    dosimetry_section now i qc = Ok (Evaluated r, store_dosimetry qc (protocol_type i) r) /\
    r_ctdi_w r =
      ctdi_w_of (ctdi_center i) (ctdi_top i) (ctdi_bottom i) (ctdi_left i) (ctdi_right i) /\
    r_status r = dosimetry_status (r_ctdi_w r) limit.
Proof.
  intros Hlim Hc Hp. destruct (acr_limits_entry _ _ Hlim) as [Href Hpf].
  unfold dosimetry_section.
  apply py_gt_true in Hc. apply py_gt_true in Hp. rewrite Hc, Hp. simpl.
  unfold dict_index. rewrite Hlim. simpl.
  rewrite !py_div_nonzero by lra. simpl.
  eexists. split; [reflexivity |]. simpl. split; reflexivity.
Qed.

(** C1. A dosimetry evaluation that goes through (positive centre reading
    and peripheral mean) for a protocol whose reference limit is below its
    pass/fail limit classifies the computed CTDI_w in two tiers: Pass
    exactly when CTDI_w <= reference limit, Minor exactly when reference
    limit < CTDI_w <= pass/fail limit, Major Fail exactly when CTDI_w >
    pass/fail limit.  Both boundary values fall on the lower side. *)
Theorem dosimetry_two_tier_classification
    (now : string) (i : DosimetryInput) (qc : QcData) (limit : Limit) :
  acr_limits !! protocol_type i = Some limit ->
  ref limit < pf limit ->
  0 < ctdi_center i ->
  0 < ctdi_periphery_avg (ctdi_top i) (ctdi_bottom i) (ctdi_left i) (ctdi_right i) ->
  exists r qc',
    dosimetry_section now i qc = Ok (Evaluated r, qc') /\
    r_ctdi_w r =
      ctdi_w_of (ctdi_center i) (ctdi_top i) (ctdi_bottom i) (ctdi_left i) (ctdi_right i) /\
    (r_status r = PassBelowReference <-> r_ctdi_w r <= ref limit) /\
    (r_status r = MinorAboveReference <-> ref limit < r_ctdi_w r <= pf limit) /\
    (r_status r = MajorFailAboveLimit <-> pf limit < r_ctdi_w r) /\
    dosimetry_status (ref limit) limit = PassBelowReference /\
    dosimetry_status (pf limit) limit = MinorAboveReference.
Proof.
  intros Hlim Hlt Hc Hp.
  destruct (dosimetry_section_evaluates now i qc limit Hlim Hc Hp) as (r & Hrun & Hw & Hst).
  exists r, (store_dosimetry qc (protocol_type i) r).
  destruct (dosimetry_status_spec (r_ctdi_w r) limit Hlt) as (Hpass & Hminor & Hmajor).
  rewrite Hst. repeat split; try tauto.
  - apply (dosimetry_status_spec (ref limit) limit Hlt). lra.
  - apply (dosimetry_status_spec (pf limit) limit Hlt). lra.
Qed.

(** The theorem at five readings of 18 mGy for the adult abdomen protocol. *)
Lemma dosimetry_two_tier_classification_witness :
  exists r qc',
    dosimetry_section "2025-01-01" uniform_reading_input qc_empty = Ok (Evaluated r, qc') /\
    r_ctdi_w r = ctdi_w_of 18 18 18 18 18 /\
    (r_status r = PassBelowReference <-> r_ctdi_w r <= 25) /\
    (r_status r = MinorAboveReference <-> 25 < r_ctdi_w r <= 30) /\
    (r_status r = MajorFailAboveLimit <-> 30 < r_ctdi_w r) /\
    dosimetry_status 25 {| ref := 25; pf := 30; phantom := "32cm" |} = PassBelowReference /\
    dosimetry_status 30 {| ref := 25; pf := 30; phantom := "32cm" |} = MinorAboveReference.
Proof.
  apply (dosimetry_two_tier_classification "2025-01-01" uniform_reading_input qc_empty
           {| ref := 25; pf := 30; phantom := "32cm" |}).
  - vm_compute. reflexivity.
  - reflexivity.
  - reflexivity.
  - reflexivity.
Defined.

(** C7. The validation looks at the centre reading and at the mean of the
    four peripheral readings only.  With the centre and top readings
    entered and the bottom, left and right readings missing (0), the
    evaluation is not refused: CTDI_w = 18 mGy is computed, classified
    Pass and written to the store. *)
Theorem dosimetry_accepts_missing_peripheral_readings (now : string) (qc : QcData) :
  exists r,
    dosimetry_section now partial_reading_input qc =
      Ok (Evaluated r, store_dosimetry qc "Adult Abdomen" r) /\
    ctdi_bottom partial_reading_input == 0 /\
    ctdi_left partial_reading_input == 0 /\
    ctdi_right partial_reading_input == 0 /\
    r_ctdi_w r == 18 /\
    r_status r = PassBelowReference /\
    (dosimetry_results (store_dosimetry qc "Adult Abdomen" r) ≫= (.!! "Adult Abdomen"%string))
      = Some r.
Proof.
  destruct (dosimetry_section_evaluates now partial_reading_input qc
              {| ref := 25; pf := 30; phantom := "32cm" |})
    as (r & Hrun & Hw & Hst); try reflexivity.
  exists r. split; [exact Hrun |].
  repeat split; try reflexivity.
  - rewrite Hw. reflexivity.
  - rewrite Hst, Hw. reflexivity.
  - unfold store_dosimetry. simpl. apply lookup_insert_eq.
Qed.

(** C8. The weighted index is (centre + 4 * mean of the four peripheral
    readings) / 5.  Raising any of the five readings, the others not
    lowered, does not lower it, and raising at least one of them strictly
    raises it; with all five readings at 18 it is 18. *)
Theorem ctdi_w_monotone (c c' t t' b b' l l' r r' : Q) :
  c <= c' -> t <= t' -> b <= b' -> l <= l' -> r <= r' ->
  ctdi_w_of c t b l r == (c + 4 * ((t + b + l + r) / 4)) / 5 /\
  ctdi_w_of c t b l r <= ctdi_w_of c' t' b' l' r' /\
  (c < c' \/ t < t' \/ b < b' \/ l < l' \/ r < r' ->
   ctdi_w_of c t b l r < ctdi_w_of c' t' b' l' r') /\
  ctdi_w_of 18 18 18 18 18 == 18.
Proof.
  intros Hc Ht Hb Hl Hr.
  unfold ctdi_w_of, ctdi_w, ctdi_periphery_avg.
  split; [reflexivity |]. rewrite !Qdiv_literal.
  split; [lra |]. split; [| reflexivity].
  intros [H | [H | [H | [H | H]]]]; lra.
Qed.

(** The theorem at five readings of 18 mGy, the top one raised to 20. *)
Lemma ctdi_w_monotone_witness :
  ctdi_w_of 18 18 18 18 18 == (18 + 4 * ((18 + 18 + 18 + 18) / 4)) / 5 /\
  ctdi_w_of 18 18 18 18 18 <= ctdi_w_of 18 20 18 18 18 /\
  (18 < 18 \/ 18 < 20 \/ 18 < 18 \/ 18 < 18 \/ 18 < 18 ->
   ctdi_w_of 18 18 18 18 18 < ctdi_w_of 18 20 18 18 18) /\
  ctdi_w_of 18 18 18 18 18 == 18.
Proof.
  apply (ctdi_w_monotone 18 18 18 20 18 18 18 18 18 18); lra.
Defined.

(** ** Beam collimation *)

Lemma beam_width_of_nonpositive (measured slope : Q) :
  slope <= 0 -> beam_width_of measured slope = Ok 0.
Proof. intros H. unfold beam_width_of. apply py_gt_false in H. now rewrite H. Qed.

(** With a non-positive slope a row does not depend on the slope. *)
Lemma beam_row_nonpositive (slope : Q) (i : nat) :
  slope <= 0 -> beam_row slope i = beam_row 0 i.
Proof.
  intros H. unfold beam_row.
  destruct (list_index test_data_n i); [| reflexivity]. simpl.
  destruct (list_index test_data_T i); [| reflexivity]. simpl.
  destruct (list_index test_data_measured i) as [measured |]; [| reflexivity]. simpl.
  destruct (list_index test_data_nominal i); [| reflexivity]. simpl.
  rewrite (beam_width_of_nonpositive measured slope H). reflexivity.
Qed.

(** With the default mask length and readings of 200 and 100 mR the slope
    is positive and the four collimations are measured. *)
Example beam_collimation_measured :
  exists rows,
    beam_collimation_section 5.01 200 100 = Ok (rows, Some Fail) /\
    map b_result rows = [Fail; Fail; Fail; Pass] /\
    map b_criteria rows = [4.5; 3.0; 3.0; 3.0].
Proof. eexists. split; [vm_compute; reflexivity |]. split; reflexivity. Qed.

(** Every row of the table is computed, whatever the slope. *)
Lemma beam_row_returns (slope : Q) (i : nat) :
  (i < length test_data_n)%nat -> exists row, beam_row slope i = Ok row.
Proof.
  intros Hi. unfold beam_row.
  assert (Hw : forall measured, exists w, beam_width_of measured slope = Ok w).
  { intros measured. unfold beam_width_of. py_case.
    - rewrite py_div_nonzero by lra. eexists. reflexivity.
    - eexists. reflexivity. }
  do 4 (destruct i as [| i];
        [cbn [list_index lookup list_lookup test_data_n test_data_T test_data_measured
                test_data_nominal mbind outcome_bind];
         match goal with
         | |- context [beam_width_of ?m slope] =>
             destruct (Hw m) as [w Hm]; rewrite Hm
         end;
         cbn [mbind outcome_bind]; eexists; reflexivity |]).
  simpl in Hi. lia.
Qed.

(** The section raises only on a mask length of 0. *)
Lemma beam_collimation_section_returns (mask_length without_mask with_mask : Q) :
  ~ mask_length == 0 ->
  exists rows overall,
    beam_collimation_section mask_length without_mask with_mask = Ok (rows, overall).
Proof.
  intros Hm. unfold beam_collimation_section.
  destruct (py_gt without_mask 0 && py_gt with_mask 0).
  - rewrite py_div_nonzero by assumption. cbn [mbind outcome_bind andb].
    destruct (py_gt mask_length 0).
    + cbn [length test_data_n seq mapM].
      destruct (beam_row_returns ((without_mask - with_mask) / mask_length) 0) as [r0 H0];
        [simpl; lia |].
      destruct (beam_row_returns ((without_mask - with_mask) / mask_length) 1) as [r1 H1];
        [simpl; lia |].
      destruct (beam_row_returns ((without_mask - with_mask) / mask_length) 2) as [r2 H2];
        [simpl; lia |].
      destruct (beam_row_returns ((without_mask - with_mask) / mask_length) 3) as [r3 H3];
        [simpl; lia |].
      rewrite H0, H1, H2, H3. cbn [mbind outcome_bind mret outcome_ret].
      do 2 eexists. reflexivity.
    + do 2 eexists. reflexivity.
  - cbn [mbind outcome_bind andb]. do 2 eexists. reflexivity.
Qed.

(** Without both calibration readings nothing is evaluated: no rows and
    no overall banner. *)
Lemma beam_collimation_without_readings (mask_length without_mask with_mask : Q) :
  without_mask <= 0 \/ with_mask <= 0 ->
  beam_collimation_section mask_length without_mask with_mask = Ok ([], None).
Proof.
  intros H. unfold beam_collimation_section.
  assert (G : py_gt without_mask 0 && py_gt with_mask 0 = false).
  { destruct H as [H | H]; apply py_gt_false in H; rewrite H;
      [reflexivity | apply andb_false_r]. }
  rewrite G. reflexivity.
Qed.

(** The one place where the section stops: both readings entered and a
    mask length of 0 make the slope's division raise. *)
Lemma beam_collimation_zero_mask_length (without_mask with_mask : Q) :
  0 < without_mask -> 0 < with_mask ->
  beam_collimation_section 0 without_mask with_mask = Raise ZeroDivisionError.
Proof.
  intros H1 H2. unfold beam_collimation_section.
  apply py_gt_true in H1. apply py_gt_true in H2. rewrite H1, H2. reflexivity.
Qed.

(** C2, as the code has it. With both calibration readings and the mask
    length positive and a calibration slope that is not positive, the
    evaluation does not stop: every tested collimation gets beam width 0,
    its error is minus the nominal width, and it is judged against
    max(30% of nominal, 3 mm) like any other row.  The three wide
    collimations fail, the 1.25 mm one passes, the overall result is Fail. *)
Theorem beam_collimation_nonpositive_slope (mask_length without_mask with_mask : Q) :
  0 < without_mask -> 0 < with_mask -> 0 < mask_length ->
  (without_mask - with_mask) / mask_length <= 0 ->
  exists rows,
    beam_collimation_section mask_length without_mask with_mask = Ok (rows, Some Fail) /\
    map b_beam_width rows = [0; 0; 0; 0] /\
    Forall (fun row => b_error row = 0 - b_nominal_nt row) rows /\
    map b_nominal_nt rows = test_data_nominal /\
    map b_result rows = [Fail; Fail; Fail; Pass].
Proof.
  intros Hwo Hw Hm Hslope. unfold beam_collimation_section.
  apply py_gt_true in Hwo. apply py_gt_true in Hw. rewrite Hwo, Hw. simpl.
  rewrite py_div_nonzero by lra. simpl.
  apply py_gt_true in Hm. rewrite Hm.
  rewrite !(beam_row_nonpositive _ _ Hslope).
  eexists. split; [vm_compute; reflexivity |].
  split; [reflexivity |]. split; [| split; reflexivity].
  repeat constructor.
Qed.

(** The theorem at equal readings with and without mask: a slope of 0. *)
Lemma beam_collimation_nonpositive_slope_witness :
  exists rows,
    beam_collimation_section 5.01 100 100 = Ok (rows, Some Fail) /\
    map b_beam_width rows = [0; 0; 0; 0] /\
    Forall (fun row => b_error row = 0 - b_nominal_nt row) rows /\
    map b_nominal_nt rows = test_data_nominal /\
    map b_result rows = [Fail; Fail; Fail; Pass].
Proof.
  apply (beam_collimation_nonpositive_slope 5.01 100 100).
  - reflexivity.
  - reflexivity.
  - reflexivity.
  - vm_compute. discriminate.
Defined.

(** C2, as stated, fails: a reading with mask above the reading without
    mask gives a negative slope, and the evaluation returns a table in
    which every beam width is 0 and the 1.25 mm collimation passes. *)
Lemma beam_collimation_calibration_counterexample :
  (1 - 2) / 5.01 < 0 /\
  exists rows overall,
    beam_collimation_section 5.01 1 2 = Ok (rows, overall) /\
    map b_beam_width rows = [0; 0; 0; 0] /\
    map b_result rows = [Fail; Fail; Fail; Pass].
Proof.
  split; [reflexivity |].
  eexists. eexists. split; [vm_compute; reflexivity |]. split; reflexivity.
Qed.

(** ** Spatial resolution *)

(** C3, as the code has it. The overall status of the spatial-resolution
    section is Pass or Fail, never Monitor: it is Pass exactly when the
    minimum-resolution item and the baseline-comparison item are both
    Pass.  A Monitor on the baseline comparison makes the overall status
    Fail even when the minimum is met, and a Monitor on the visual
    assessment does not change the overall status. *)
Theorem spatial_resolution_overall_status (i : SpatialInput) :
  exists min_status baseline_status visual_status,
    map s_status (sr_results (spatial_resolution_section i)) =
      [min_status; baseline_status; visual_status] /\
    (min_status = Pass \/ min_status = Fail) /\
    (baseline_status = Pass \/ baseline_status = Monitor) /\
    (visual_status = Pass \/ visual_status = Monitor) /\
    (sr_status (spatial_resolution_section i) = Pass <->
       min_status = Pass /\ baseline_status = Pass) /\
    (sr_status (spatial_resolution_section i) = Fail <->
       min_status = Fail \/ baseline_status = Monitor) /\
    sr_status (spatial_resolution_section i) <> Monitor.
Proof.
  unfold spatial_resolution_section. cbn [sr_results sr_status map s_status].
  do 3 eexists. split; [reflexivity |].
  destruct (py_ge (measured_resolution i) (required_resolution_of (sr_protocol i)));
    destruct (py_le (Qabs (measured_resolution i - baseline_resolution i)) 1.0);
    destruct (py_in (visual_quality i) ["Excellent"; "Good"]%string);
    simpl; repeat split; auto; try discriminate; intuition congruence.
Qed.

(** C3, as stated, fails on both counts: with the minimum met and the
    pattern good, a Monitor on the baseline comparison gives an overall
    Fail; with the minimum met and the baseline kept, a Monitor on the
    visual assessment leaves the overall status at Pass. *)
Lemma spatial_resolution_monitor_counterexample :
  (map s_status (sr_results (spatial_resolution_section off_baseline_input)) =
     [Pass; Monitor; Pass] /\
   sr_status (spatial_resolution_section off_baseline_input) = Fail) /\
  (map s_status (sr_results (spatial_resolution_section fair_pattern_input)) =
     [Pass; Pass; Monitor] /\
   sr_status (spatial_resolution_section fair_pattern_input) = Pass).
Proof. repeat split; vm_compute; reflexivity. Qed.

(** ** CT number accuracy *)

(** The row of one material with an entry in the reference table is Pass
    or Fail; for water it is Pass exactly when |measured - expected| <= 7
    whatever tolerance the table lists, for any other material exactly
    when |measured - expected| <= the table's tolerance. *)
Lemma ct_number_row_criterion
    (table : gmap string MaterialRef) (material : string) (measured : Q)
    (entry : MaterialRef) :
  table !! material = Some entry ->
  exists row pass_criteria,
    ct_number_row table material measured = Ok (row, pass_criteria) /\
    row = (ct_number_entry_row material measured entry).1 /\
    pass_criteria = (ct_number_entry_row material measured entry).2 /\
    row_result row = (if pass_criteria then Pass else Fail) /\
    (material = "Water"%string ->
       (row_result row = Pass <-> Qabs (measured - expected entry) <= 7)) /\
    (material <> "Water"%string ->
       (row_result row = Pass <-> Qabs (measured - expected entry) <= tolerance entry)).
Proof.
  intros Hentry. unfold ct_number_row, dict_index. rewrite Hentry.
  do 2 eexists. split; [reflexivity |]. split; [reflexivity |]. split; [reflexivity |].
  cbn [ct_number_entry_row row_result fst snd]. split; [reflexivity |].
  unfold ct_pass_criteria.
  destruct (String.eqb_spec material "Water") as [Hw | Hw].
  - split; [| contradiction]. intros _.
    py_case; split; intros; try reflexivity; try discriminate; lra.
  - split; [contradiction |]. intros _.
    py_case; split; intros; try reflexivity; try discriminate; lra.
Qed.

(** The section evaluates the four materials in the order Air, Acrylic,
    Water, Bone against [materials_ref]; the overall result is Pass
    exactly when every row is. *)
Lemma ct_number_accuracy_section_rows (now : string) (i : CtNumberInput) (qc : QcData) :
  exists air acrylic water bone r overall,
    ct_number_row materials_ref "Air" (m_air i) = Ok air /\
    ct_number_row materials_ref "Acrylic" (m_acrylic i) = Ok acrylic /\
    ct_number_row materials_ref "Water" (m_water i) = Ok water /\
    ct_number_row materials_ref "Bone" (m_bone i) = Ok bone /\
    ct_number_accuracy_section now i qc =
      Ok (r, overall, store_ct_number qc (ct_protocol i) r) /\
    c_results r = [air.1; acrylic.1; water.1; bone.1] /\
    c_overall_pass r = air.2 && acrylic.2 && water.2 && bone.2 /\
    overall = (if c_overall_pass r then Pass else Fail).
Proof.
  unfold ct_number_accuracy_section, measurements, ct_number_loop.
  unfold ct_number_row, dict_index.
  replace (materials_ref !! "Air"%string)
    with (Some {| expected := -1000; tolerance := 100 |}) by (vm_compute; reflexivity).
  replace (materials_ref !! "Acrylic"%string)
    with (Some {| expected := 120; tolerance := 40 |}) by (vm_compute; reflexivity).
  replace (materials_ref !! "Water"%string)
    with (Some {| expected := 0; tolerance := 7 |}) by (vm_compute; reflexivity).
  replace (materials_ref !! "Bone"%string)
    with (Some {| expected := 850; tolerance := 100 |}) by (vm_compute; reflexivity).
  cbn [mbind outcome_bind app].
  do 6 eexists. do 5 (split; [reflexivity |]).
  cbn [c_results c_overall_pass fst snd ct_number_entry_row].
  split; [reflexivity |].
  split; [| reflexivity].
  destruct (ct_pass_criteria "Air" _ _), (ct_pass_criteria "Acrylic" _ _),
    (ct_pass_criteria "Water" _ _), (ct_pass_criteria "Bone" _ _); reflexivity.
Qed.

(** The loop of the evaluation over any reference table that lists the
    four materials: one row per material, in the order of the
    measurements, and the running verdict. *)
Lemma ct_number_loop_rows
    (table : gmap string MaterialRef) (i : CtNumberInput)
    (e_air e_acrylic e_water e_bone : MaterialRef) :
  table !! "Air"%string = Some e_air ->
  table !! "Acrylic"%string = Some e_acrylic ->
  table !! "Water"%string = Some e_water ->
  table !! "Bone"%string = Some e_bone ->
  ct_number_loop table (measurements i) [] true =
    Ok ([ (ct_number_entry_row "Air" (m_air i) e_air).1;
          (ct_number_entry_row "Acrylic" (m_acrylic i) e_acrylic).1;
          (ct_number_entry_row "Water" (m_water i) e_water).1;
          (ct_number_entry_row "Bone" (m_bone i) e_bone).1 ],
        (ct_number_entry_row "Air" (m_air i) e_air).2 &&
        (ct_number_entry_row "Acrylic" (m_acrylic i) e_acrylic).2 &&
        (ct_number_entry_row "Water" (m_water i) e_water).2 &&
        (ct_number_entry_row "Bone" (m_bone i) e_bone).2).
Proof.
  intros Ha Hc Hw Hb.
  unfold measurements, ct_number_loop, ct_number_row, dict_index.
  rewrite Ha, Hc, Hw, Hb.
  cbn [mbind outcome_bind app ct_number_entry_row fst snd].
  destruct (ct_pass_criteria "Air" _ _), (ct_pass_criteria "Acrylic" _ _),
    (ct_pass_criteria "Water" _ _), (ct_pass_criteria "Bone" _ _); reflexivity.
Qed.

(** C4. Every CT-number evaluation produces one row per material, in the
    order air, acrylic, water, bone.  Over any reference table that lists
    the four materials, the water row is Pass exactly when |measured -
    expected| <= 7 HU, whatever tolerance the table lists for water, and
    the row of every other material is Pass exactly when |measured -
    expected| <= that material's table tolerance; a row that is not Pass
    is Fail.  The evaluation of the page is this loop over [materials_ref]:
    its table of results holds these four rows, Pass exactly within 100 HU
    of -1000 for air, 40 HU of 120 for acrylic, 7 HU of 0 for water and
    100 HU of 850 for bone, and its overall result is Pass exactly when
    all four rows are. *)
Theorem ct_number_pass_criterion
    (table : gmap string MaterialRef) (now : string) (i : CtNumberInput) (qc : QcData)
    (e_air e_acrylic e_water e_bone : MaterialRef) :
  table !! "Air"%string = Some e_air ->
  table !! "Acrylic"%string = Some e_acrylic ->
  table !! "Water"%string = Some e_water ->
  table !! "Bone"%string = Some e_bone ->
  (exists air acrylic water bone all_pass,
     ct_number_loop table (measurements i) [] true =
       Ok ([air; acrylic; water; bone], all_pass) /\
     map row_material [air; acrylic; water; bone] =
       ["Air"; "Acrylic"; "Water"; "Bone"]%string /\
     map row_measured [air; acrylic; water; bone] =
       [m_air i; m_acrylic i; m_water i; m_bone i] /\
     (row_result air = Pass <-> Qabs (m_air i - expected e_air) <= tolerance e_air) /\
     (row_result acrylic = Pass <->
        Qabs (m_acrylic i - expected e_acrylic) <= tolerance e_acrylic) /\
     (row_result water = Pass <-> Qabs (m_water i - expected e_water) <= 7) /\
     (row_result bone = Pass <-> Qabs (m_bone i - expected e_bone) <= tolerance e_bone) /\
     Forall (fun row => row_result row = Pass \/ row_result row = Fail)
       [air; acrylic; water; bone] /\
     (all_pass = true <->
        Forall (fun row => row_result row = Pass) [air; acrylic; water; bone])) /\
  (exists r overall qc',
     ct_number_accuracy_section now i qc = Ok (r, overall, qc') /\
     ct_number_loop materials_ref (measurements i) [] true =
       Ok (c_results r, c_overall_pass r) /\
     map row_material (c_results r) = ["Air"; "Acrylic"; "Water"; "Bone"]%string /\
     (exists air, c_results r !! 0%nat = Some air /\
        (row_result air = Pass <-> Qabs (m_air i - -1000) <= 100)) /\
     (exists acrylic, c_results r !! 1%nat = Some acrylic /\
        (row_result acrylic = Pass <-> Qabs (m_acrylic i - 120) <= 40)) /\
     (exists water, c_results r !! 2%nat = Some water /\
        (row_result water = Pass <-> Qabs (m_water i - 0) <= 7)) /\
     (exists bone, c_results r !! 3%nat = Some bone /\
        (row_result bone = Pass <-> Qabs (m_bone i - 850) <= 100)) /\
     (overall = Pass <-> Forall (fun row => row_result row = Pass) (c_results r)) /\
     (overall = Pass \/ overall = Fail)).
Proof.
  intros Ha Hc Hw Hb.
  assert (Hrow : forall material measured entry,
            (row_result (ct_number_entry_row material measured entry).1 = Pass <->
             (ct_number_entry_row material measured entry).2 = true) /\
            (row_result (ct_number_entry_row material measured entry).1 = Pass \/
             row_result (ct_number_entry_row material measured entry).1 = Fail)).
  { intros material measured entry. cbn [ct_number_entry_row fst snd row_result].
    destruct (ct_pass_criteria material _ _); split; auto;
      split; intros; try reflexivity; discriminate. }
  assert (Hcrit : forall material measured entry,
            (ct_number_entry_row material measured entry).2 = true <->
            Qabs (measured - expected entry) <=
              (if String.eqb material "Water" then 7 else tolerance entry)).
  { intros material measured entry. cbn [ct_number_entry_row snd].
    unfold ct_pass_criteria. destruct (String.eqb material "Water"); apply py_le_true. }
  assert (Hall : forall ra rc rw rb : CtNumberRow * bool,
            ra.2 && rc.2 && rw.2 && rb.2 = true <->
            ra.2 = true /\ rc.2 = true /\ rw.2 = true /\ rb.2 = true).
  { intros. rewrite !andb_true_iff. tauto. }
  split.
  - do 5 eexists.
    split; [apply (ct_number_loop_rows table i e_air e_acrylic e_water e_bone Ha Hc Hw Hb) |].
    split; [reflexivity |]. split; [reflexivity |].
    split; [rewrite (proj1 (Hrow _ _ _)), Hcrit; reflexivity |].
    split; [rewrite (proj1 (Hrow _ _ _)), Hcrit; reflexivity |].
    split; [rewrite (proj1 (Hrow _ _ _)), Hcrit; reflexivity |].
    split; [rewrite (proj1 (Hrow _ _ _)), Hcrit; reflexivity |].
    split; [repeat (apply Forall_cons; split; [apply Hrow |]); apply Forall_nil; exact I |].
    rewrite Hall, !Forall_cons, Forall_nil, !(proj1 (Hrow _ _ _)). tauto.
  - pose proof (ct_number_loop_rows materials_ref i
                  {| expected := -1000; tolerance := 100 |}
                  {| expected := 120; tolerance := 40 |}
                  {| expected := 0; tolerance := 7 |}
                  {| expected := 850; tolerance := 100 |}
                  ltac:(vm_compute; reflexivity) ltac:(vm_compute; reflexivity)
                  ltac:(vm_compute; reflexivity) ltac:(vm_compute; reflexivity)) as Hloop.
    unfold ct_number_accuracy_section. rewrite Hloop. cbn [mbind outcome_bind].
    do 3 eexists. split; [reflexivity |].
    cbn [c_results c_overall_pass].
    split; [reflexivity |]. split; [reflexivity |].
    do 4 (split; [eexists; split; [reflexivity |];
                  rewrite (proj1 (Hrow _ _ _)), Hcrit; reflexivity |]).
    split.
    + rewrite pass_or_fail_is_pass, Hall, !Forall_cons, Forall_nil,
        !(proj1 (Hrow _ _ _)). tauto.
    + match goal with |- context [if ?c then Pass else Fail] => destruct c end; auto.
Qed.

(** The theorem at a water reading of 10 HU against a table that lists
    40 HU for water. *)
Lemma ct_number_pass_criterion_witness :
  (exists air acrylic water bone all_pass,
     ct_number_loop loose_water_table (measurements water_ten_input) [] true =
       Ok ([air; acrylic; water; bone], all_pass) /\
     map row_material [air; acrylic; water; bone] =
       ["Air"; "Acrylic"; "Water"; "Bone"]%string /\
     map row_measured [air; acrylic; water; bone] = [-1000; 120; 10; 850] /\
     (row_result air = Pass <-> Qabs (-1000 - -1000) <= 100) /\
     (row_result acrylic = Pass <-> Qabs (120 - 120) <= 40) /\
     (row_result water = Pass <-> Qabs (10 - 0) <= 7) /\
     (row_result bone = Pass <-> Qabs (850 - 850) <= 100) /\
     Forall (fun row => row_result row = Pass \/ row_result row = Fail)
       [air; acrylic; water; bone] /\
     (all_pass = true <->
        Forall (fun row => row_result row = Pass) [air; acrylic; water; bone])) /\
  (exists r overall qc',
     ct_number_accuracy_section "2025-01-01" water_ten_input qc_empty =
       Ok (r, overall, qc') /\
     ct_number_loop materials_ref (measurements water_ten_input) [] true =
       Ok (c_results r, c_overall_pass r) /\
     map row_material (c_results r) = ["Air"; "Acrylic"; "Water"; "Bone"]%string /\
     (exists air, c_results r !! 0%nat = Some air /\
        (row_result air = Pass <-> Qabs (-1000 - -1000) <= 100)) /\
     (exists acrylic, c_results r !! 1%nat = Some acrylic /\
        (row_result acrylic = Pass <-> Qabs (120 - 120) <= 40)) /\
     (exists water, c_results r !! 2%nat = Some water /\
        (row_result water = Pass <-> Qabs (10 - 0) <= 7)) /\
     (exists bone, c_results r !! 3%nat = Some bone /\
        (row_result bone = Pass <-> Qabs (850 - 850) <= 100)) /\
     (overall = Pass <-> Forall (fun row => row_result row = Pass) (c_results r)) /\
     (overall = Pass \/ overall = Fail)).
Proof.
  apply (ct_number_pass_criterion loose_water_table "2025-01-01" water_ten_input qc_empty
           {| expected := -1000; tolerance := 100 |}
           {| expected := 120; tolerance := 40 |}
           {| expected := 0; tolerance := 40 |}
           {| expected := 850; tolerance := 100 |});
    vm_compute; reflexivity.
Defined.

(** ** Guarded divisions *)

Lemma cnr_of_total (signal noise noise_sd : Q) :
  exists q, cnr_of signal noise noise_sd = Ok q /\ (noise_sd == 0 -> q = 0).
Proof.
  unfold cnr_of. py_case.
  - rewrite py_div_nonzero by lra. eexists. split; [reflexivity |]. intros. lra.
  - exists 0. split; [reflexivity | reflexivity].
Qed.

Lemma non_uniformity_of_total (roi_max roi_min : Q) :
  exists q,
    non_uniformity_of roi_max roi_min = Ok q /\ (roi_max + roi_min == 0 -> q = 0).
Proof.
  unfold non_uniformity_of. py_case.
  - rewrite py_div_nonzero by assumption.
    eexists. split; [reflexivity |]. intros. contradiction.
  - exists 0. split; reflexivity.
Qed.

(** The low-contrast evaluation always returns, with the CNR of the
    guarded division and the requirement of the protocol lookup. *)
Lemma low_contrast_resolution_section_total (i : LcrInput) :
  exists r,
    low_contrast_resolution_section i = Ok r /\
    cnr_of (signal i) (noise i) (noise_sd i) = Ok (cnr r) /\
    cnr_required r = cnr_required_of (lcr_protocol i) /\
    minimum_met r = v6mm_03 (visibility i) /\
    cnr_pass r = py_ge (cnr r) (cnr_required r) /\
    lcr_overall_pass r = minimum_met r && cnr_pass r /\
    lcr_overall_status r = (if lcr_overall_pass r then Pass else Fail).
Proof.
  unfold low_contrast_resolution_section.
  destruct (cnr_of_total (signal i) (noise i) (noise_sd i)) as (q & Hq & _).
  rewrite Hq. cbn [mbind outcome_bind].
  eexists. split; [reflexivity |]. repeat split.
Qed.

(** The uniformity evaluation always returns. *)
Lemma ct_uniformity_section_total (i : UniformityInput) :
  exists r,
    ct_uniformity_section i = Ok r /\
    non_uniformity_of (roi_max r) (roi_min r) = Ok (non_uniformity r).
Proof.
  unfold ct_uniformity_section, py_max, py_min.
  cbn [map mbind outcome_bind].
  match goal with
  | |- context [non_uniformity_of ?a ?b] =>
      destruct (non_uniformity_of_total a b) as (q & Hq & _); rewrite Hq
  end.
  cbn [mbind outcome_bind].
  eexists. split; [reflexivity |]. exact Hq.
Qed.

(** C9. The two guarded ratios always return a value and never raise:
    CNR is 0 when the noise standard deviation is 0, the non-uniformity
    percentage is 0 when max ROI + min ROI is 0, and the evaluations that
    use them return for every input. *)
Theorem zero_denominator_guards
    (signal noise noise_sd roi_max roi_min : Q) (i : LcrInput) (u : UniformityInput) :
  (exists q, cnr_of signal noise noise_sd = Ok q /\ (noise_sd == 0 -> q = 0)) /\
  (exists q, non_uniformity_of roi_max roi_min = Ok q /\
             (roi_max + roi_min == 0 -> q = 0)) /\
  (exists r, low_contrast_resolution_section i = Ok r) /\
  (exists r, ct_uniformity_section u = Ok r).
Proof.
  split; [apply cnr_of_total |]. split; [apply non_uniformity_of_total |].
  split.
  - destruct (low_contrast_resolution_section_total i) as (r & Hr & _). now exists r.
  - destruct (ct_uniformity_section_total u) as (r & Hr & _). now exists r.
Qed.

(** ** Low contrast resolution *)

(** C10. The overall status is Pass exactly when the 6 mm / 0.3 % object
    is visible and the CNR reaches the protocol's requirement, and Fail
    otherwise.  Two evaluations that agree on that check box, on the
    protocol and on the signal and noise values have the same overall
    status, whatever the other eleven check boxes, and so the count of
    visible objects, are. *)
Theorem lcr_overall_status_criterion (i i' : LcrInput) :
  v6mm_03 (visibility i') = v6mm_03 (visibility i) ->
  lcr_protocol i' = lcr_protocol i ->
  signal i' = signal i -> noise i' = noise i -> noise_sd i' = noise_sd i ->
  exists r r',
    low_contrast_resolution_section i = Ok r /\
    low_contrast_resolution_section i' = Ok r' /\
    cnr_of (signal i) (noise i) (noise_sd i) = Ok (cnr r) /\
    cnr_required r = cnr_required_of (lcr_protocol i) /\
    (lcr_overall_status r = Pass <->
       v6mm_03 (visibility i) = true /\ cnr_required r <= cnr r) /\
    (lcr_overall_status r = Fail <->
       ~ (v6mm_03 (visibility i) = true /\ cnr_required r <= cnr r)) /\
    lcr_overall_status r' = lcr_overall_status r.
Proof.
  intros Hv Hp Hs Hn Hsd.
  destruct (low_contrast_resolution_section_total i)
    as (r & Hr & Hcnr & Hreq & Hmin & Hpass & Hov & Hst).
  destruct (low_contrast_resolution_section_total i')
    as (r' & Hr' & Hcnr' & Hreq' & Hmin' & Hpass' & Hov' & Hst').
  exists r, r'. split; [exact Hr |]. split; [exact Hr' |].
  split; [exact Hcnr |]. split; [exact Hreq |].
  assert (Hsame : cnr r' = cnr r).
  { rewrite Hs, Hn, Hsd, Hcnr in Hcnr'. now inversion Hcnr'. }
  rewrite Hst, Hov, Hmin, Hpass.
  split; [| split].
  - rewrite pass_or_fail_is_pass, andb_true_iff, py_ge_true. reflexivity.
  - rewrite pass_or_fail_is_fail, <- not_true_iff_false, andb_true_iff, py_ge_true.
    reflexivity.
  - rewrite Hst', Hov', Hmin', Hpass', Hv, Hreq', Hp, Hsame, <- Hreq. reflexivity.
Qed.

(** The theorem at twelve visible objects against one visible object. *)
Lemma lcr_overall_status_criterion_witness :
  exists r r',
    low_contrast_resolution_section (lcr_input all_visible "Adult Head") = Ok r /\
    low_contrast_resolution_section (lcr_input only_6mm_03_visible "Adult Head") = Ok r' /\
    cnr_of 95.0 89.0 6.0 = Ok (cnr r) /\
    cnr_required r = cnr_required_of "Adult Head" /\
    (lcr_overall_status r = Pass <-> true = true /\ cnr_required r <= cnr r) /\
    (lcr_overall_status r = Fail <-> ~ (true = true /\ cnr_required r <= cnr r)) /\
    lcr_overall_status r' = lcr_overall_status r.
Proof.
  apply (lcr_overall_status_criterion
           (lcr_input all_visible "Adult Head")
           (lcr_input only_6mm_03_visible "Adult Head")); reflexivity.
Defined.

(** ** Criterion lookups *)

(** C6, as the code has it. A protocol name without an entry does not
    stop the evaluation: the CNR requirement falls back to 1.0 and the
    low-contrast evaluation returns with it, and the required resolution
    falls back to 6.0 lp/cm. *)
Theorem criterion_lookup_defaults (i : LcrInput) (j : SpatialInput) :
  cnr_criteria !! lcr_protocol i = None ->
  criteria_map !! sr_protocol j = None ->
  cnr_required_of (lcr_protocol i) = 1.0 /\
  (exists r, low_contrast_resolution_section i = Ok r /\ cnr_required r = 1.0) /\
  required_resolution_of (sr_protocol j) = 6.0 /\
  required_resolution (spatial_resolution_section j) = 6.0.
Proof.
  intros Hi Hj.
  assert (Hc : cnr_required_of (lcr_protocol i) = 1.0).
  { unfold cnr_required_of, dict_get. now rewrite Hi. }
  assert (Hr : required_resolution_of (sr_protocol j) = 6.0).
  { unfold required_resolution_of, dict_get. now rewrite Hj. }
  split; [exact Hc |]. split; [| split; [exact Hr | exact Hr]].
  destruct (low_contrast_resolution_section_total i) as (r & Hrun & _ & Hreq & _).
  exists r. split; [exact Hrun |]. now rewrite Hreq.
Qed.

(** The theorem at a protocol name that neither table lists. *)
Lemma criterion_lookup_defaults_witness :
  cnr_required_of unlisted_protocol = 1.0 /\
  (exists r, low_contrast_resolution_section (lcr_input all_visible unlisted_protocol) = Ok r /\
             cnr_required r = 1.0) /\
  required_resolution_of unlisted_protocol = 6.0 /\
  required_resolution (spatial_resolution_section unlisted_spatial_input) = 6.0.
Proof.
  apply (criterion_lookup_defaults (lcr_input all_visible unlisted_protocol)
           unlisted_spatial_input); vm_compute; reflexivity.
Defined.

(** C6, as stated, fails: for a protocol name that neither table lists
    both evaluations return, with the substituted values 1.0 and 6.0. *)
Lemma criterion_lookup_counterexample :
  cnr_criteria !! unlisted_protocol = None /\
  criteria_map !! unlisted_protocol = None /\
  (exists r, low_contrast_resolution_section (lcr_input all_visible unlisted_protocol) = Ok r /\
             cnr_required r = 1.0 /\ lcr_overall_status r = Pass) /\
  required_resolution (spatial_resolution_section unlisted_spatial_input) = 6.0 /\
  sr_status (spatial_resolution_section unlisted_spatial_input) = Pass.
Proof.
  split; [vm_compute; reflexivity |]. split; [vm_compute; reflexivity |].
  split; [| split; vm_compute; reflexivity].
  eexists. split; [vm_compute; reflexivity |]. split; reflexivity.
Qed.

(** ** Control chart *)

Lemma warning_mask_true (ucl2 lcl2 ucl3 lcl3 y : Q) :
  warning_mask ucl2 lcl2 ucl3 lcl3 y = true <->
  (ucl2 < y <= ucl3 \/ lcl3 <= y < lcl2).
Proof.
  unfold warning_mask.
  rewrite orb_true_iff, !andb_true_iff, py_gt_true, py_le_true, py_lt_true, py_ge_true.
  tauto.
Qed.

Lemma out_of_control_mask_true (ucl3 lcl3 y : Q) :
  out_of_control_mask ucl3 lcl3 y = true <-> (ucl3 < y \/ y < lcl3).
Proof.
  unfold out_of_control_mask.
  rewrite orb_true_iff, py_gt_true, py_lt_true. tauto.
Qed.

(** C5, as the code has it. With a standard deviation that is not
    negative, a point of the series is warning exactly when its value is
    beyond a 2-sigma limit and not beyond the 3-sigma limit of the same
    side (ucl_2sigma < v <= ucl_3sigma, or lcl_3sigma <= v < lcl_2sigma)
    and out of control exactly when it is strictly outside the 3-sigma
    band.  No point is both.  A point exactly on a 3-sigma limit is not
    out of control, and it is warning as soon as the standard deviation is
    positive. *)
Theorem control_chart_warning_classification
    (series_std : list Q -> Q) (y : TrendRow -> Q) (df : list TrendRow) (row : TrendRow) :
  0 <= series_std (map y df) ->
  row ∈ df ->
  (row ∈ warning_points (control_chart series_std y df) <->
     (ucl_2sigma (control_chart series_std y df) < y row
        <= ucl_3sigma (control_chart series_std y df) \/
      lcl_3sigma (control_chart series_std y df) <= y row
        < lcl_2sigma (control_chart series_std y df))) /\
  (row ∈ out_of_control (control_chart series_std y df) <->
     (ucl_3sigma (control_chart series_std y df) < y row \/
      y row < lcl_3sigma (control_chart series_std y df))) /\
  ~ (row ∈ out_of_control (control_chart series_std y df) /\
     row ∈ warning_points (control_chart series_std y df)) /\
  ((y row == ucl_3sigma (control_chart series_std y df) \/
    y row == lcl_3sigma (control_chart series_std y df)) ->
   (row ∉ out_of_control (control_chart series_std y df)) /\
   (0 < series_std (map y df) ->
    row ∈ warning_points (control_chart series_std y df))).
Proof.
  intros Hstd Hrow.
  unfold control_chart.
  cbn [warning_points out_of_control ucl_2sigma ucl_3sigma lcl_2sigma lcl_3sigma].
  rewrite !list_elem_of_filter, warning_mask_true, out_of_control_mask_true.
  set (m := series_mean (map y df)) in *.
  set (sd := series_std (map y df)) in *.
  split; [tauto |]. split; [tauto |]. split.
  - intros [[HO _] [HW _]].
    destruct HO as [HO | HO], HW as [[H1 H2] | [H1 H2]]; lra.
  - intros Hb. split.
    + intros [HO _]. destruct Hb as [Hb | Hb], HO as [HO | HO]; lra.
    + intros Hpos. split; [| assumption].
      destruct Hb as [Hb | Hb]; [left | right]; lra.
Qed.

(** The theorem at the reading of 30 HU of the eleven-week series. *)
Lemma control_chart_warning_classification_witness :
  (trend_row 30 ∈ warning_points (control_chart boundary_std water_ct boundary_series) <->
     (ucl_2sigma (control_chart boundary_std water_ct boundary_series)
        < water_ct (trend_row 30)
        <= ucl_3sigma (control_chart boundary_std water_ct boundary_series) \/
      lcl_3sigma (control_chart boundary_std water_ct boundary_series)
        <= water_ct (trend_row 30)
        < lcl_2sigma (control_chart boundary_std water_ct boundary_series))) /\
  (trend_row 30 ∈ out_of_control (control_chart boundary_std water_ct boundary_series) <->
     (ucl_3sigma (control_chart boundary_std water_ct boundary_series)
        < water_ct (trend_row 30) \/
      water_ct (trend_row 30)
        < lcl_3sigma (control_chart boundary_std water_ct boundary_series))) /\
  ~ (trend_row 30 ∈ out_of_control (control_chart boundary_std water_ct boundary_series) /\
     trend_row 30 ∈ warning_points (control_chart boundary_std water_ct boundary_series)) /\
  ((water_ct (trend_row 30)
      == ucl_3sigma (control_chart boundary_std water_ct boundary_series) \/
    water_ct (trend_row 30)
      == lcl_3sigma (control_chart boundary_std water_ct boundary_series)) ->
   (trend_row 30 ∉ out_of_control (control_chart boundary_std water_ct boundary_series)) /\
   (0 < boundary_std (map water_ct boundary_series) ->
    trend_row 30 ∈ warning_points (control_chart boundary_std water_ct boundary_series))).
Proof.
  apply (control_chart_warning_classification boundary_std water_ct boundary_series
           (trend_row 30)).
  - vm_compute. discriminate.
  - apply list_elem_of_here.
Defined.

(** C5, as stated, fails at the boundary: in a series of mean 0 and
    sample standard deviation 10 the reading of 30 HU lies exactly on the
    upper 3-sigma limit, not strictly between the 2-sigma and 3-sigma
    limits, and the analysis lists it among the warning points. *)
Lemma control_chart_boundary_counterexample :
  is_sample_std (map water_ct boundary_series) 10 /\
  exists s,
    data_analysis_section boundary_std boundary_series "Water CT Number" = Ok s /\
    mean_val s == 0 /\
    ucl_2sigma s == 20 /\
    ucl_3sigma s == 30 /\
    water_ct (trend_row 30) == ucl_3sigma s /\
    ~ (ucl_2sigma s < water_ct (trend_row 30) < ucl_3sigma s) /\
    ~ (lcl_3sigma s < water_ct (trend_row 30) < lcl_2sigma s) /\
    trend_row 30 ∈ warning_points s /\
    trend_row 30 ∉ out_of_control s.
Proof.
  split.
  - split; [vm_compute; discriminate | vm_compute; reflexivity].
  - eexists. split; [vm_compute; reflexivity |].
    do 4 (split; [vm_compute; reflexivity |]).
    split; [intros [_ H]; revert H; vm_compute; discriminate |].
    split; [intros [_ H]; revert H; vm_compute; discriminate |].
    split; [apply list_elem_of_here |].
    intros H. inversion H.
Qed.

(** * Further properties of the sections *)

(** ** Dosimetry: the percentages, the refusal and the store *)

Lemma Qdiv_times (a d : Q) : ~ d == 0 -> a / d * d == a.
Proof. intros Hd. rewrite Qmult_comm. now apply Qmult_div_r. Qed.

(** A ratio to a positive limit, as a percentage, against 100. *)
Lemma percent_le_100 (a d : Q) : 0 < d -> (a / d * 100 <= 100 <-> a <= d).
Proof.
  intros Hd. assert (Hq : a / d * d == a) by (apply Qdiv_times; lra).
  set (q := a / d) in *. split; intros H; nra.
Qed.

(** The record that a successful evaluation shows and stores. *)
Lemma dosimetry_section_result (now : string) (i : DosimetryInput) (qc : QcData)
    (limit : Limit) :
  acr_limits !! protocol_type i = Some limit ->
  0 < ctdi_center i ->
  0 < ctdi_periphery_avg (ctdi_top i) (ctdi_bottom i) (ctdi_left i) (ctdi_right i) ->
  exists r,
    dosimetry_section now i qc = Ok (Evaluated r, store_dosimetry qc (protocol_type i) r) /\
    r_ctdi_w r =
      ctdi_w_of (ctdi_center i) (ctdi_top i) (ctdi_bottom i) (ctdi_left i) (ctdi_right i) /\
    r_pct_ref r = r_ctdi_w r / ref limit * 100 /\
    r_pct_pf r = r_ctdi_w r / pf limit * 100 /\
    r_status r = dosimetry_status (r_ctdi_w r) limit.
Proof.
  intros Hlim Hc Hp. destruct (acr_limits_entry _ _ Hlim) as [Href Hpf].
  unfold dosimetry_section.
  apply py_gt_true in Hc. apply py_gt_true in Hp. rewrite Hc, Hp.
  cbn [andb]. unfold dict_index. rewrite Hlim. cbn [mbind outcome_bind].
  rewrite !py_div_nonzero by lra. cbn [mbind outcome_bind].
  eexists. split; [reflexivity |]. cbn. repeat split.
Qed.

(** X2. In a dosimetry evaluation that goes through, the two displayed
    percentages tell the status: Pass exactly when CTDI_w is at most 100%
    of the reference limit, Major Fail exactly when it is above 100% of
    the pass/fail limit, Minor in between; and the percentage of the
    pass/fail limit is always the smaller of the two. *)
Theorem dosimetry_percentages_tell_status
    (now : string) (i : DosimetryInput) (qc : QcData) (limit : Limit) :
  acr_limits !! protocol_type i = Some limit ->
  0 < ctdi_center i ->
  0 < ctdi_periphery_avg (ctdi_top i) (ctdi_bottom i) (ctdi_left i) (ctdi_right i) ->
  exists r qc',
    dosimetry_section now i qc = Ok (Evaluated r, qc') /\
    (r_status r = PassBelowReference <-> r_pct_ref r <= 100) /\
    (r_status r = MinorAboveReference <-> r_pct_pf r <= 100 /\ 100 < r_pct_ref r) /\
    (r_status r = MajorFailAboveLimit <-> 100 < r_pct_pf r) /\
    r_pct_pf r < r_pct_ref r.
Proof.
  intros Hlim Hc Hp.
  destruct (acr_limits_entry _ _ Hlim) as [Href Hpf].
  destruct (dosimetry_section_result now i qc limit Hlim Hc Hp)
    as (r & Hrun & Hw & Hpr & Hpp & Hst).
  exists r, (store_dosimetry qc (protocol_type i) r). split; [exact Hrun |].
  destruct (dosimetry_status_spec (r_ctdi_w r) limit Hpf) as (Hpass & Hminor & Hmajor).
  assert (H1 := percent_le_100 (r_ctdi_w r) (ref limit) Href).
  assert (H2 := percent_le_100 (r_ctdi_w r) (pf limit) ltac:(lra)).
  assert (Hwpos : 0 < r_ctdi_w r).
  { rewrite Hw. unfold ctdi_w_of, ctdi_w. rewrite Qdiv_literal. lra. }
  rewrite Hst, Hpr, Hpp.
  split; [rewrite Hpass; tauto |].
  split; [rewrite Hminor; split; intros [Ha Hb]; split; try tauto;
          try (apply Qnot_le_lt; intros Hn; apply H1 in Hn; lra);
          try (apply Qnot_le_lt; intros Hn; apply H1 in Hn; lra) |].
  split.
  - rewrite Hmajor. split; intros H.
    + apply Qnot_le_lt. intros Hn. apply H2 in Hn. lra.
    + apply Qnot_le_lt. intros Hn. apply H2 in Hn. lra.
  - assert (Ha : r_ctdi_w r / ref limit * ref limit == r_ctdi_w r)
      by (apply Qdiv_times; lra).
    assert (Hb : r_ctdi_w r / pf limit * pf limit == r_ctdi_w r)
      by (apply Qdiv_times; lra).
    set (a := r_ctdi_w r / ref limit) in *. set (b := r_ctdi_w r / pf limit) in *.
    assert (Hapos : 0 < a) by nra.
    assert (Hbpos : 0 < b) by nra.
    assert (Hlt : b * ref limit < a * ref limit) by nra.
    nra.
Qed.

(** The theorem at five readings of 18 mGy for the adult abdomen protocol. *)
Lemma dosimetry_percentages_tell_status_witness :
  exists r qc',
    dosimetry_section "2025-01-01" uniform_reading_input qc_empty = Ok (Evaluated r, qc') /\
    (r_status r = PassBelowReference <-> r_pct_ref r <= 100) /\
    (r_status r = MinorAboveReference <-> r_pct_pf r <= 100 /\ 100 < r_pct_ref r) /\
    (r_status r = MajorFailAboveLimit <-> 100 < r_pct_pf r) /\
    r_pct_pf r < r_pct_ref r.
Proof.
  apply (dosimetry_percentages_tell_status "2025-01-01" uniform_reading_input qc_empty
           {| ref := 25; pf := 30; phantom := "32cm" |}); reflexivity.
Defined.

(** X3. With readings that are not negative (the widgets' minimum), the
    evaluation is refused exactly when the centre reading is 0 or all four
    peripheral readings are 0, whatever the protocol; the page then shows
    the validation error and the store is left as it was. *)
Theorem dosimetry_refused_iff (now : string) (i : DosimetryInput) (qc : QcData) :
  0 <= ctdi_center i -> 0 <= ctdi_top i -> 0 <= ctdi_bottom i ->
  0 <= ctdi_left i -> 0 <= ctdi_right i ->
  (dosimetry_section now i qc =
     Ok (ValidationError "Please enter valid CTDI measurements", qc) <->
   ctdi_center i == 0 \/
   (ctdi_top i == 0 /\ ctdi_bottom i == 0 /\ ctdi_left i == 0 /\ ctdi_right i == 0)).
Proof.
  intros Hc Ht Hb Hl Hr.
  set (avg := ctdi_periphery_avg (ctdi_top i) (ctdi_bottom i) (ctdi_left i) (ctdi_right i)).
  assert (Havg : avg <= 0 <->
            ctdi_top i == 0 /\ ctdi_bottom i == 0 /\ ctdi_left i == 0 /\ ctdi_right i == 0).
  { unfold avg, ctdi_periphery_avg. rewrite Qdiv_literal.
    split; [intros H; repeat split; lra | intros (H1 & H2 & H3 & H4); lra]. }
  split.
  - intros Hrun.
    destruct (Qlt_le_dec 0 (ctdi_center i)) as [Hcpos | Hc0]; [| left; lra].
    destruct (Qlt_le_dec 0 avg) as [Hapos | Ha0]; [| right; now apply Havg].
    exfalso. revert Hrun. unfold dosimetry_section. fold avg.
    apply py_gt_true in Hcpos. apply py_gt_true in Hapos. rewrite Hcpos, Hapos.
    cbn [andb].
    destruct (dict_index acr_limits (protocol_type i)) as [limit |];
      cbn [mbind outcome_bind]; [| discriminate].
    destruct (py_div (ctdi_w (ctdi_center i) avg) (ref limit));
      cbn [mbind outcome_bind]; [| discriminate].
    destruct (py_div (ctdi_w (ctdi_center i) avg) (pf limit));
      cbn [mbind outcome_bind]; discriminate.
  - intros H. apply dosimetry_section_rejects. fold avg.
    destruct H as [H | H]; [left; lra | right; now apply Havg].
Qed.

(** The theorem at the centre reading left at 0. *)
Lemma dosimetry_refused_iff_witness :
  dosimetry_section "2025-01-01"
    {| protocol_type := "Adult Head"; ctdi_center := 0; ctdi_top := 60; ctdi_bottom := 61;
       ctdi_left := 62; ctdi_right := 63; kvp := 120; ma := 300; rotation_time := 0.7;
       n_detectors := 16; detector_width := 1.25 |} qc_empty =
     Ok (ValidationError "Please enter valid CTDI measurements", qc_empty) <->
   0 == 0 \/ (60 == 0 /\ 61 == 0 /\ 62 == 0 /\ 63 == 0).
Proof.
  apply (dosimetry_refused_iff "2025-01-01"
    {| protocol_type := "Adult Head"; ctdi_center := 0; ctdi_top := 60; ctdi_bottom := 61;
       ctdi_left := 62; ctdi_right := 63; kvp := 120; ma := 300; rotation_time := 0.7;
       n_detectors := 16; detector_width := 1.25 |} qc_empty); cbn; lra.
Defined.

(** X4. A dosimetry evaluation that goes through writes its record under
    the selected protocol, replacing whatever was stored there; the
    records of the other protocols and the CT number results are left as
    they were, and the record carries the time of the evaluation. *)
Theorem dosimetry_store_update
    (now : string) (i : DosimetryInput) (qc : QcData) (limit : Limit) :
  acr_limits !! protocol_type i = Some limit ->
  0 < ctdi_center i ->
  0 < ctdi_periphery_avg (ctdi_top i) (ctdi_bottom i) (ctdi_left i) (ctdi_right i) ->
  exists r qc',
    dosimetry_section now i qc = Ok (Evaluated r, qc') /\
    stored_dosimetry qc' (protocol_type i) = Some r /\
    (forall other, other <> protocol_type i ->
       stored_dosimetry qc' other = stored_dosimetry qc other) /\
    (forall protocol, stored_ct_number qc' protocol = stored_ct_number qc protocol) /\
    r_date r = now /\
    (1 <= sections_completed qc')%Z.
Proof.
  intros Hlim Hc Hp.
  pose proof (acr_limits_entry _ _ Hlim) as [Href Hpf].
  unfold dosimetry_section.
  apply py_gt_true in Hc. apply py_gt_true in Hp. rewrite Hc, Hp.
  cbn [andb]. unfold dict_index. rewrite Hlim. cbn [mbind outcome_bind].
  rewrite !py_div_nonzero by lra. cbn [mbind outcome_bind].
  do 2 eexists. split; [reflexivity |].
  unfold stored_dosimetry, stored_ct_number, sections_completed, store_dosimetry.
  cbn [dosimetry_results ct_number_results r_date].
  split; [apply lookup_insert_eq |].
  split.
  - intros other Hother. rewrite lookup_insert_ne by congruence.
    destruct (dosimetry_results qc); [reflexivity | apply lookup_empty].
  - split; [reflexivity |]. split; [reflexivity |].
    destruct (ct_number_results qc); lia.
Qed.

(** The theorem at five readings of 18 mGy on an empty store. *)
Lemma dosimetry_store_update_witness :
  exists r qc',
    dosimetry_section "2025-01-01" uniform_reading_input qc_empty = Ok (Evaluated r, qc') /\
    stored_dosimetry qc' "Adult Abdomen" = Some r /\
    (forall other, other <> "Adult Abdomen"%string ->
       stored_dosimetry qc' other = stored_dosimetry qc_empty other) /\
    (forall protocol, stored_ct_number qc' protocol = stored_ct_number qc_empty protocol) /\
    r_date r = "2025-01-01"%string /\
    (1 <= sections_completed qc')%Z.
Proof.
  apply (dosimetry_store_update "2025-01-01" uniform_reading_input qc_empty
           {| ref := 25; pf := 30; phantom := "32cm" |}); reflexivity.
Defined.

(** ** Beam collimation: the one failure and the passing window *)

(** X5. The beam collimation page stops with an exception in exactly one
    situation: both calibration readings are positive and the mask length
    is 0, where the slope's division raises [ZeroDivisionError].  For all
    other inputs it returns. *)
Theorem beam_collimation_raises_iff (mask_length without_mask with_mask : Q) (e : exn) :
  beam_collimation_section mask_length without_mask with_mask = Raise e <->
  e = ZeroDivisionError /\ mask_length == 0 /\ 0 < without_mask /\ 0 < with_mask.
Proof.
  split.
  - intros Hrun.
    destruct (Qeq_dec mask_length 0) as [Hm | Hm].
    + destruct (Qlt_le_dec 0 without_mask) as [Hwo | Hwo];
        [| rewrite beam_collimation_without_readings in Hrun by (now left);
           discriminate].
      destruct (Qlt_le_dec 0 with_mask) as [Hw | Hw];
        [| rewrite beam_collimation_without_readings in Hrun by (now right);
           discriminate].
      split; [| tauto].
      revert Hrun. unfold beam_collimation_section.
      apply py_gt_true in Hwo. apply py_gt_true in Hw. rewrite Hwo, Hw.
      cbn [andb]. rewrite py_div_zero by assumption. cbn [mbind outcome_bind].
      intros Hrun. now inversion Hrun.
    + destruct (beam_collimation_section_returns mask_length without_mask with_mask Hm)
        as (rows & overall & Hok).
      rewrite Hok in Hrun. discriminate.
  - intros (-> & Hm & Hwo & Hw). unfold beam_collimation_section.
    apply py_gt_true in Hwo. apply py_gt_true in Hw. rewrite Hwo, Hw.
    cbn [andb]. rewrite py_div_zero by assumption. reflexivity.
Qed.

(** A measured beam width against its window, in terms of the slope. *)
Lemma ratio_within (measured slope lo hi : Q) :
  0 < slope ->
  (lo <= measured / slope <= hi <-> lo * slope <= measured <= hi * slope).
Proof.
  intros Hs. assert (Hq : measured / slope * slope == measured) by (apply Qdiv_times; lra).
  set (q := measured / slope) in *. split; intros [H1 H2]; split; nra.
Qed.

(** The row of a collimation when the slope is positive. *)
Lemma beam_row_positive (slope : Q) (i : nat) (n : Z) (t measured nominal_nt : Q) :
  test_data_n !! i = Some n ->
  test_data_T !! i = Some t ->
  test_data_measured !! i = Some measured ->
  test_data_nominal !! i = Some nominal_nt ->
  0 < slope ->
  beam_row slope i =
    Ok {| b_n := n; b_T := t; b_nominal_nt := nominal_nt; b_measured := measured;
          b_beam_width := measured / slope;
          b_error := measured / slope - nominal_nt;
          b_criteria := Qmax (nominal_nt * 0.3) 3.0;
          b_result := if py_le (Qabs (measured / slope - nominal_nt))
                               (Qmax (nominal_nt * 0.3) 3.0)
                      then Pass else Fail |}.
Proof.
  intros Hn Ht Hm Hnom Hs. unfold beam_row, list_index.
  rewrite Hn, Ht, Hm, Hnom. cbn [mbind outcome_bind].
  unfold beam_width_of. apply py_gt_true in Hs as Hgt. rewrite Hgt.
  rewrite py_div_nonzero by lra. reflexivity.
Qed.

(** Whether a row with a positive slope passes, as bounds on the slope. *)
Lemma beam_result_window (measured slope nominal_nt criteria : Q) :
  0 < slope ->
  Qmax (nominal_nt * 0.3) 3.0 == criteria ->
  (py_le (Qabs (measured / slope - nominal_nt)) (Qmax (nominal_nt * 0.3) 3.0) = true <->
   (nominal_nt - criteria) * slope <= measured <= (nominal_nt + criteria) * slope).
Proof.
  intros Hs Hmax.
  rewrite py_le_true, Hmax, Qabs_Qle_condition.
  rewrite <- (ratio_within measured slope _ _ Hs).
  split; intros [H1 H2]; split; lra.
Qed.

Lemma contains_Pass_of_verdict (b : bool) : contains_Pass (if b then Pass else Fail) = b.
Proof. now destruct b. Qed.

(** A quotient by a positive number against a bound. *)
Lemma Qdiv_le_iff (a b s : Q) : 0 < b -> (a / b <= s <-> a <= b * s).
Proof.
  intros Hb. assert (Hq : a / b * b == a) by (apply Qdiv_times; lra).
  set (q := a / b) in *. split; intros H; nra.
Qed.

Lemma Qle_div_iff (a b s : Q) : 0 < b -> (s <= a / b <-> b * s <= a).
Proof.
  intros Hb. assert (Hq : a / b * b == a) by (apply Qdiv_times; lra).
  set (q := a / b) in *. split; intros H; nra.
Qed.

(** In exact arithmetic the overall result is Pass exactly when the
    calibration slope lies between 346.5/13 and 470.3/10.5 mR/mm; within a
    rounding error of these two ends the rounding of the page's own
    divisions decides. *)
Lemma beam_collimation_exact_window (mask_length without_mask with_mask : Q) :
  0 < without_mask -> 0 < with_mask -> 0 < mask_length ->
  exists rows overall,
    beam_collimation_section mask_length without_mask with_mask = Ok (rows, Some overall) /\
    length rows = 4%nat /\
    (overall = Pass \/ overall = Fail) /\
    (overall = Pass <-> Forall (fun row => b_result row = Pass) rows) /\
    (overall = Pass <->
       346.5 / 13 <= (without_mask - with_mask) / mask_length <= 470.3 / 10.5).
Proof.
  intros Hwo Hw Hm.
  set (slope := (without_mask - with_mask) / mask_length).
  assert (Hwin : 346.5 / 13 <= slope <= 470.3 / 10.5 <->
                 346.5 <= 13 * slope /\ 10.5 * slope <= 470.3).
  { rewrite Qdiv_le_iff, Qle_div_iff by reflexivity. reflexivity. }
  unfold beam_collimation_section.
  apply py_gt_true in Hwo. apply py_gt_true in Hw. rewrite Hwo, Hw.
  cbn [andb]. rewrite py_div_nonzero by lra. cbn [mbind outcome_bind].
  apply py_gt_true in Hm. rewrite Hm. fold slope.
  cbn [length test_data_n seq mapM].
  destruct (Qlt_le_dec 0 slope) as [Hs | Hs].
  - rewrite (beam_row_positive slope 0 4 3.75 470.3 15) by (reflexivity || assumption).
    rewrite (beam_row_positive slope 1 8 1.25 346.5 10) by (reflexivity || assumption).
    rewrite (beam_row_positive slope 2 4 1.25 195.7 5) by (reflexivity || assumption).
    rewrite (beam_row_positive slope 3 2 0.625 45.46 1.25) by (reflexivity || assumption).
    cbn [mbind outcome_bind mret outcome_ret forallb b_result].
    pose proof (beam_result_window 470.3 slope 15 4.5 Hs ltac:(reflexivity)) as H15.
    pose proof (beam_result_window 346.5 slope 10 3 Hs ltac:(reflexivity)) as H10.
    pose proof (beam_result_window 195.7 slope 5 3 Hs ltac:(reflexivity)) as H5.
    pose proof (beam_result_window 45.46 slope 1.25 3 Hs ltac:(reflexivity)) as H1.
    rewrite !contains_Pass_of_verdict.
    do 2 eexists. split; [reflexivity |]. split; [reflexivity |].
    split; [match goal with |- context [if ?c then Pass else Fail] => destruct c end;
            auto |].
    rewrite !Forall_cons, Forall_nil. cbn [b_result].
    rewrite !pass_or_fail_is_pass, !andb_true_iff, H15, H10, H5, H1, Hwin.
    split; [tauto |].
    split; [intros ([A1 A2] & [B1 B2] & [C1 C2] & [D1 D2] & _); split; lra
           | intros [A B]; repeat split; lra].
  - rewrite !(beam_row_nonpositive slope _ Hs).
    do 2 eexists. split; [vm_compute; reflexivity |]. split; [reflexivity |].
    split; [now right |].
    split.
    + split; [discriminate |]. intros H. apply Forall_cons in H as [H _]. discriminate.
    + split; [discriminate |]. rewrite Hwin. intros [Ha Hb]. lra.
Qed.

(** X6. With both calibration readings and the mask length positive, the
    page shows the four tested collimations and an overall result, which
    is Pass exactly when all four rows are.  The overall result is Pass
    for every calibration slope from 26.7 to 44.7 mR/mm and Fail for every
    slope of at most 26.6 or at least 44.8 mR/mm: below the window the
    10 mm collimation reads too wide, above it the 15 mm collimation
    reads too narrow. *)
Theorem beam_collimation_slope_window (mask_length without_mask with_mask : Q) :
  0 < without_mask -> 0 < with_mask -> 0 < mask_length ->
  exists rows overall,
    beam_collimation_section mask_length without_mask with_mask = Ok (rows, Some overall) /\
    length rows = 4%nat /\
    (overall = Pass \/ overall = Fail) /\
    (overall = Pass <-> Forall (fun row => b_result row = Pass) rows) /\
    (26.7 <= (without_mask - with_mask) / mask_length <= 44.7 -> overall = Pass) /\
    ((without_mask - with_mask) / mask_length <= 26.6 \/
     44.8 <= (without_mask - with_mask) / mask_length -> overall = Fail).
Proof.
  intros Hwo Hw Hm.
  destruct (beam_collimation_exact_window mask_length without_mask with_mask Hwo Hw Hm)
    as (rows & overall & Hrun & Hlen & Hpf & Hrows & Hwin).
  exists rows, overall. split; [exact Hrun |]. split; [exact Hlen |].
  split; [exact Hpf |]. split; [exact Hrows |].
  set (slope := (without_mask - with_mask) / mask_length) in *.
  assert (Hlo : 26.6 < 346.5 / 13 /\ 346.5 / 13 < 26.7) by (split; reflexivity).
  assert (Hhi : 44.7 < 470.3 / 10.5 /\ 470.3 / 10.5 < 44.8) by (split; reflexivity).
  set (lo := 346.5 / 13) in *. set (hi := 470.3 / 10.5) in *.
  split.
  - intros [H1 H2]. apply Hwin. split; lra.
  - intros Hout. destruct Hpf as [Hp | Hf]; [| exact Hf].
    apply Hwin in Hp. destruct Hout; lra.
Qed.

(** The theorem with the default mask of 5.01 mm: readings of 300 and
    120 mR give a slope of about 35.9 and Pass, readings of 200 and
    100 mR a slope of about 20.0 and Fail. *)
Lemma beam_collimation_slope_window_witness :
  (26.7 <= (300 - 120) / 5.01 <= 44.7 /\
   exists rows, beam_collimation_section 5.01 300 120 = Ok (rows, Some Pass)) /\
  ((200 - 100) / 5.01 <= 26.6 /\
   exists rows, beam_collimation_section 5.01 200 100 = Ok (rows, Some Fail)).
Proof.
  assert (Hin : 26.7 <= (300 - 120) / 5.01 <= 44.7)
    by (split; vm_compute; discriminate).
  assert (Hout : (200 - 100) / 5.01 <= 26.6) by (vm_compute; discriminate).
  split; (split; [assumption |]).
  - destruct (beam_collimation_slope_window 5.01 300 120)
      as (rows & overall & Hrun & _ & _ & _ & Hpass & _); [reflexivity .. |].
    exists rows. rewrite Hrun, (Hpass Hin). reflexivity.
  - destruct (beam_collimation_slope_window 5.01 200 100)
      as (rows & overall & Hrun & _ & _ & _ & _ & Hfail); [reflexivity .. |].
    exists rows. rewrite Hrun, (Hfail (or_introl Hout)). reflexivity.
Defined.

(** ** Artifacts: the score and its three banners *)

Lemma artifact_scores_lookup (severity : string) (score : Z) :
  artifact_scores !! severity = Some score <->
  (severity = "None"%string /\ score = 0%Z) \/
  (severity = "Minor"%string /\ score = 1%Z) \/
  (severity = "Major"%string /\ score = 2%Z).
Proof.
  unfold artifact_scores. cbn [list_to_map foldr fst snd].
  rewrite !lookup_insert, lookup_empty.
  destruct (decide ("None"%string = severity)) as [<- | N0];
    [| destruct (decide ("Minor"%string = severity)) as [<- | N1];
       [| destruct (decide ("Major"%string = severity)) as [<- | N2]]];
    (split;
     [ intros Hs; try discriminate; inversion Hs; subst; tauto
     | intros [[E1 E2] | [[E1 E2] | [E1 E2]]]; subst; congruence ]).
Qed.

(** A severity chosen in a select box has a score between 0 and 2, and
    the score is 0 only for "None". *)
Lemma severity_option_score (severity : string) :
  severity ∈ severity_options ->
  exists score,
    artifact_scores !! severity = Some score /\
    (0 <= score <= 2)%Z /\ (score = 0%Z <-> severity = "None"%string).
Proof.
  unfold severity_options. rewrite !elem_of_cons, elem_of_nil.
  intros [-> | [-> | [-> | []]]].
  - exists 0%Z. split; [reflexivity |]. split; [lia | tauto].
  - exists 1%Z. split; [reflexivity |]. split; [lia |]. split; [lia | discriminate].
  - exists 2%Z. split; [reflexivity |]. split; [lia |]. split; [lia | discriminate].
Qed.

(** The evaluation in terms of the five scores. *)
Lemma artifacts_section_scores (i : ArtifactsInput) (s1 s2 s3 s4 s5 : Z) :
  artifact_scores !! streaks i = Some s1 ->
  artifact_scores !! rings i = Some s2 ->
  artifact_scores !! cupping i = Some s3 ->
  artifact_scores !! motion i = Some s4 ->
  artifact_scores !! noise_variation i = Some s5 ->
  exists r,
    artifacts_section i = Ok r /\
    total_score r = (s1 + s2 + s3 + s4 + s5)%Z /\
    art_overall_status r = artifact_status (s1 + s2 + s3 + s4 + s5) /\
    map a_score (art_rows r) = [s1; s2; s3; s4; s5] /\
    map a_severity (art_rows r) = severities i.
Proof.
  intros H1 H2 H3 H4 H5.
  unfold artifacts_section, dict_index. rewrite H1, H2, H3, H4, H5.
  cbn [mbind outcome_bind mapM artifact_row]. unfold dict_index.
  rewrite H1, H2, H3, H4, H5. cbn [mbind outcome_bind mret outcome_ret].
  eexists. split; [reflexivity |]. repeat split.
Qed.

Lemma artifact_status_spec (total : Z) :
  (0 <= total)%Z ->
  (artifact_status total = ArtifactsPass <-> total = 0%Z) /\
  (artifact_status total = ArtifactsMinor <-> (1 <= total <= 3)%Z) /\
  (artifact_status total = ArtifactsMajor <-> (4 <= total)%Z).
Proof.
  intros Hpos. unfold artifact_status.
  destruct (Z.eqb_spec total 0); [| destruct (Z.leb_spec total 3)];
    repeat split; intros; try discriminate; try reflexivity; lia.
Qed.

(** X7. For severities chosen in the select boxes the page always shows a
    result; the total score is the sum of the five scores and lies
    between 0 and 10, and the banner is Pass exactly when all five
    artifact types are rated "None", Minor for a total of 1 to 3 and
    Major for a total of 4 or more. *)
Theorem artifacts_score_and_banner (i : ArtifactsInput) :
  Forall (fun severity => severity ∈ severity_options) (severities i) ->
  exists r,
    artifacts_section i = Ok r /\
    (0 <= total_score r <= 10)%Z /\
    total_score r = foldr Z.add 0%Z (map a_score (art_rows r)) /\
    (art_overall_status r = ArtifactsPass <->
       Forall (fun severity => severity = "None"%string) (severities i)) /\
    (art_overall_status r = ArtifactsMinor <-> (1 <= total_score r <= 3)%Z) /\
    (art_overall_status r = ArtifactsMajor <-> (4 <= total_score r)%Z).
Proof.
  unfold severities. rewrite !Forall_cons, Forall_nil.
  intros (V1 & V2 & V3 & V4 & V5 & _).
  destruct (severity_option_score _ V1) as (s1 & H1 & B1 & Z1).
  destruct (severity_option_score _ V2) as (s2 & H2 & B2 & Z2).
  destruct (severity_option_score _ V3) as (s3 & H3 & B3 & Z3).
  destruct (severity_option_score _ V4) as (s4 & H4 & B4 & Z4).
  destruct (severity_option_score _ V5) as (s5 & H5 & B5 & Z5).
  destruct (artifacts_section_scores i s1 s2 s3 s4 s5 H1 H2 H3 H4 H5)
    as (r & Hrun & Htot & Hst & Hrows & _).
  exists r. split; [exact Hrun |].
  destruct (artifact_status_spec (s1 + s2 + s3 + s4 + s5)) as (Hp & Hmi & Hma); [lia |].
  rewrite Hst, Htot, Hrows. cbn [foldr].
  split; [lia |]. split; [lia |].
  split; [| split; assumption].
  rewrite Hp, !Forall_cons, Forall_nil, <- Z1, <- Z2, <- Z3, <- Z4, <- Z5.
  split; [intros; repeat split; lia | intros (-> & -> & -> & -> & -> & _); reflexivity].
Qed.

(** The theorem at one minor and one major artifact. *)
Lemma artifacts_score_and_banner_witness :
  exists r,
    artifacts_section
      {| art_protocol := "Adult Head"; streaks := "Minor"; rings := "None";
         cupping := "Major"; motion := "None"; noise_variation := "None";
         other_artifacts := ""; phantom_32cm := false; beyond_20cm := "No";
         image_quality := "Good"; clinical_impact := "None" |} = Ok r /\
    (0 <= total_score r <= 10)%Z /\
    total_score r = foldr Z.add 0%Z (map a_score (art_rows r)) /\
    (art_overall_status r = ArtifactsPass <->
       Forall (fun severity => severity = "None"%string)
         ["Minor"; "None"; "Major"; "None"; "None"]%string) /\
    (art_overall_status r = ArtifactsMinor <-> (1 <= total_score r <= 3)%Z) /\
    (art_overall_status r = ArtifactsMajor <-> (4 <= total_score r)%Z).
Proof.
  apply (artifacts_score_and_banner
      {| art_protocol := "Adult Head"; streaks := "Minor"; rings := "None";
         cupping := "Major"; motion := "None"; noise_variation := "None";
         other_artifacts := ""; phantom_32cm := false; beyond_20cm := "No";
         image_quality := "Good"; clinical_impact := "None" |}).
  unfold severities, severity_options. cbn.
  repeat constructor.
Defined.

Lemma rated_cons (severity : string) (score : Z) (rest : list string) :
  (score = 0%Z <-> severity = "None"%string) ->
  length (filter (fun severity => severity <> "None"%string) (severity :: rest)) =
  ((if (score =? 0)%Z then 0 else 1) +
   length (filter (fun severity => severity <> "None"%string) rest))%nat.
Proof.
  intros Hz. rewrite filter_cons.
  destruct (Z.eqb_spec score 0) as [E | E]; case_decide; cbn [length]; try lia; tauto.
Qed.

(** X8. The Major banner needs at least two rated artifact types: a
    single rated artifact, even one rated "Major", gives the Minor banner,
    while four or five rated artifacts give the Major banner even when all
    of them are rated "Minor". *)
Theorem artifacts_major_needs_two (i : ArtifactsInput) :
  Forall (fun severity => severity ∈ severity_options) (severities i) ->
  exists r,
    artifacts_section i = Ok r /\
    (art_overall_status r = ArtifactsMajor -> (2 <= length (rated i))%nat) /\
    (length (rated i) = 1%nat -> art_overall_status r = ArtifactsMinor) /\
    ((4 <= length (rated i))%nat -> art_overall_status r = ArtifactsMajor).
Proof.
  unfold rated, severities. rewrite !Forall_cons, Forall_nil.
  intros (V1 & V2 & V3 & V4 & V5 & _).
  destruct (severity_option_score _ V1) as (s1 & H1 & B1 & Z1).
  destruct (severity_option_score _ V2) as (s2 & H2 & B2 & Z2).
  destruct (severity_option_score _ V3) as (s3 & H3 & B3 & Z3).
  destruct (severity_option_score _ V4) as (s4 & H4 & B4 & Z4).
  destruct (severity_option_score _ V5) as (s5 & H5 & B5 & Z5).
  destruct (artifacts_section_scores i s1 s2 s3 s4 s5 H1 H2 H3 H4 H5)
    as (r & Hrun & _ & Hst & _).
  exists r. split; [exact Hrun |].
  destruct (artifact_status_spec (s1 + s2 + s3 + s4 + s5)) as (Hp & Hmi & Hma); [lia |].
  rewrite Hst, Hmi, Hma.
  rewrite (rated_cons _ s1 _ Z1), (rated_cons _ s2 _ Z2), (rated_cons _ s3 _ Z3),
    (rated_cons _ s4 _ Z4), (rated_cons _ s5 _ Z5), filter_nil.
  cbn [length].
  destruct (Z.eqb_spec s1 0), (Z.eqb_spec s2 0), (Z.eqb_spec s3 0),
    (Z.eqb_spec s4 0), (Z.eqb_spec s5 0); repeat split; intros; lia.
Qed.

(** The theorem at a single artifact rated "Major". *)
Lemma artifacts_major_needs_two_witness :
  exists r,
    artifacts_section
      {| art_protocol := "Adult Head"; streaks := "None"; rings := "Major";
         cupping := "None"; motion := "None"; noise_variation := "None";
         other_artifacts := ""; phantom_32cm := false; beyond_20cm := "No";
         image_quality := "Good"; clinical_impact := "None" |} = Ok r /\
    (art_overall_status r = ArtifactsMajor ->
     (2 <= length (rated
        {| art_protocol := "Adult Head"; streaks := "None"; rings := "Major";
           cupping := "None"; motion := "None"; noise_variation := "None";
           other_artifacts := ""; phantom_32cm := false; beyond_20cm := "No";
           image_quality := "Good"; clinical_impact := "None" |}))%nat) /\
    (length (rated
        {| art_protocol := "Adult Head"; streaks := "None"; rings := "Major";
           cupping := "None"; motion := "None"; noise_variation := "None";
           other_artifacts := ""; phantom_32cm := false; beyond_20cm := "No";
           image_quality := "Good"; clinical_impact := "None" |}) = 1%nat ->
     art_overall_status r = ArtifactsMinor) /\
    ((4 <= length (rated
        {| art_protocol := "Adult Head"; streaks := "None"; rings := "Major";
           cupping := "None"; motion := "None"; noise_variation := "None";
           other_artifacts := ""; phantom_32cm := false; beyond_20cm := "No";
           image_quality := "Good"; clinical_impact := "None" |}))%nat ->
     art_overall_status r = ArtifactsMajor).
Proof.
  apply (artifacts_major_needs_two
      {| art_protocol := "Adult Head"; streaks := "None"; rings := "Major";
         cupping := "None"; motion := "None"; noise_variation := "None";
         other_artifacts := ""; phantom_32cm := false; beyond_20cm := "No";
         image_quality := "Good"; clinical_impact := "None" |}).
  unfold severities, severity_options. cbn.
  repeat constructor.
Defined.

Lemma artifact_score_nonneg (severity : string) (score : Z) :
  artifact_scores !! severity = Some score -> (0 <= score <= 2)%Z.
Proof.
  intros H. apply artifact_scores_lookup in H.
  destruct H as [[_ ->] | [[_ ->] | [_ ->]]]; lia.
Qed.

Lemma artifact_rank_monotone (total total' : Z) :
  (0 <= total)%Z -> (total <= total')%Z ->
  (artifact_rank (artifact_status total) <= artifact_rank (artifact_status total'))%Z.
Proof.
  intros H0 H. unfold artifact_status.
  destruct (Z.eqb_spec total 0), (Z.eqb_spec total' 0),
    (Z.leb_spec total 3), (Z.leb_spec total' 3); cbn; lia.
Qed.

(** X9. Rating any artifact type more severely never gives a milder
    banner: when each severity of one evaluation is at most the
    corresponding severity of another, the total score and the banner of
    the first are at most those of the second.  Two evaluations with the
    same five severities have the same banner, whatever the protocol, the
    notes, the phantom, the image quality and the clinical impact are. *)
Theorem artifacts_banner_monotone (i i' : ArtifactsInput) :
  Forall2 severity_le (severities i) (severities i') ->
  exists r r',
    artifacts_section i = Ok r /\
    artifacts_section i' = Ok r' /\
    (total_score r <= total_score r')%Z /\
    (artifact_rank (art_overall_status r) <= artifact_rank (art_overall_status r'))%Z /\
    (severities i = severities i' -> art_overall_status r = art_overall_status r').
Proof.
  unfold severities. intros H.
  apply Forall2_cons in H as [(s1 & s1' & H1 & H1' & L1) H].
  apply Forall2_cons in H as [(s2 & s2' & H2 & H2' & L2) H].
  apply Forall2_cons in H as [(s3 & s3' & H3 & H3' & L3) H].
  apply Forall2_cons in H as [(s4 & s4' & H4 & H4' & L4) H].
  apply Forall2_cons in H as [(s5 & s5' & H5 & H5' & L5) _].
  destruct (artifacts_section_scores i s1 s2 s3 s4 s5 H1 H2 H3 H4 H5)
    as (r & Hrun & Htot & Hst & _).
  destruct (artifacts_section_scores i' s1' s2' s3' s4' s5' H1' H2' H3' H4' H5')
    as (r' & Hrun' & Htot' & Hst' & _).
  exists r, r'. split; [exact Hrun |]. split; [exact Hrun' |].
  rewrite Htot, Htot', Hst, Hst'.
  pose proof (artifact_score_nonneg _ _ H1) as N1.
  pose proof (artifact_score_nonneg _ _ H2) as N2.
  pose proof (artifact_score_nonneg _ _ H3) as N3.
  pose proof (artifact_score_nonneg _ _ H4) as N4.
  pose proof (artifact_score_nonneg _ _ H5) as N5.
  split; [lia |]. split; [apply artifact_rank_monotone; lia |].
  intros Heq. injection Heq as E1 E2 E3 E4 E5.
  rewrite E1 in H1. rewrite E2 in H2. rewrite E3 in H3. rewrite E4 in H4. rewrite E5 in H5.
  congruence.
Qed.

(** The theorem at a minor streak against a major streak. *)
Lemma artifacts_banner_monotone_witness :
  exists r r',
    artifacts_section
      {| art_protocol := "Adult Head"; streaks := "Minor"; rings := "None";
         cupping := "None"; motion := "None"; noise_variation := "None";
         other_artifacts := ""; phantom_32cm := false; beyond_20cm := "No";
         image_quality := "Good"; clinical_impact := "None" |} = Ok r /\
    artifacts_section
      {| art_protocol := "Adult Head"; streaks := "Major"; rings := "None";
         cupping := "None"; motion := "None"; noise_variation := "None";
         other_artifacts := "faint band"; phantom_32cm := true; beyond_20cm := "No";
         image_quality := "Fair"; clinical_impact := "Minimal" |} = Ok r' /\
    (total_score r <= total_score r')%Z /\
    (artifact_rank (art_overall_status r) <= artifact_rank (art_overall_status r'))%Z /\
    (["Minor"; "None"; "None"; "None"; "None"]%string =
     ["Major"; "None"; "None"; "None"; "None"]%string ->
     art_overall_status r = art_overall_status r').
Proof.
  apply (artifacts_banner_monotone
      {| art_protocol := "Adult Head"; streaks := "Minor"; rings := "None";
         cupping := "None"; motion := "None"; noise_variation := "None";
         other_artifacts := ""; phantom_32cm := false; beyond_20cm := "No";
         image_quality := "Good"; clinical_impact := "None" |}
      {| art_protocol := "Adult Head"; streaks := "Major"; rings := "None";
         cupping := "None"; motion := "None"; noise_variation := "None";
         other_artifacts := "faint band"; phantom_32cm := true; beyond_20cm := "No";
         image_quality := "Fair"; clinical_impact := "Minimal" |}).
  unfold severities. cbn.
  repeat (apply Forall2_cons; split;
          [unfold severity_le; eexists; eexists; split; [reflexivity |];
           split; [reflexivity | cbn; lia] |]).
  apply Forall2_nil. exact I.
Defined.

(** ** Protocol review: the Status column and the metrics *)

Lemma py_count_filter (cond : ProtocolData -> bool) (data : list (string * ProtocolData)) :
  py_count cond data =
  Z.of_nat (length (filter (fun entry => cond entry.2 = true) data)).
Proof.
  unfold py_count.
  assert (G : forall acc,
             fold_left (fun acc entry => if cond entry.2 then (acc + 1)%Z else acc) data acc =
             (acc + Z.of_nat (length (filter (fun entry => cond entry.2 = true) data)))%Z).
  { induction data as [| entry data IH]; intros acc; cbn [fold_left].
    - rewrite filter_nil. cbn. lia.
    - rewrite IH, filter_cons. destruct (cond entry.2) eqn:E.
      + rewrite decide_True by reflexivity. cbn [length]. lia.
      + rewrite decide_False by discriminate. lia. }
  rewrite G. lia.
Qed.

Lemma major_fail_is_fail (cat : ProtocolData) :
  is_major_fail cat = true <-> protocol_status cat = Fail.
Proof.
  unfold is_major_fail, protocol_status. rewrite py_gt_true.
  py_case; split; intros; try reflexivity; try discriminate; lra.
Qed.

Lemma minor_fail_is_pass (cat : ProtocolData) :
  is_minor_fail cat = true -> protocol_status cat = Pass.
Proof.
  unfold is_minor_fail, protocol_status. rewrite andb_true_iff.
  intros [_ H]. now rewrite H.
Qed.

(** X10. In the protocol review, over any table of protocols: the Status
    column has one row per protocol, Fail exactly for the protocols
    counted as major fails; a protocol counted as a minor fail has Status
    Pass; no protocol is counted twice, so that minor and major fails
    together never exceed the number of protocols. *)
Theorem protocol_review_metrics (data : list (string * ProtocolData)) :
  map fst (review_status (protocol_review data)) = map fst data /\
  Forall2 (fun entry row => row.2 = Fail <-> is_major_fail entry.2 = true)
    data (review_status (protocol_review data)) /\
  Forall2 (fun entry row => is_minor_fail entry.2 = true -> row.2 = Pass)
    data (review_status (protocol_review data)) /\
  Forall (fun entry => ~ (is_minor_fail entry.2 = true /\ is_major_fail entry.2 = true))
    data /\
  (0 <= minor_fails (protocol_review data))%Z /\
  (0 <= major_fails (protocol_review data))%Z /\
  (minor_fails (protocol_review data) + major_fails (protocol_review data)
     <= total_protocols (protocol_review data))%Z.
Proof.
  unfold protocol_review.
  cbn [review_status minor_fails major_fails total_protocols].
  rewrite !py_count_filter.
  split; [now rewrite map_map |].
  split; [| split; [| split]].
  - induction data as [| entry data IH]; constructor; [| exact IH].
    cbn [snd]. symmetry. apply major_fail_is_fail.
  - induction data as [| entry data IH]; constructor; [| exact IH].
    cbn [snd]. apply minor_fail_is_pass.
  - apply Forall_forall. intros entry _ [Hmin Hmaj].
    apply minor_fail_is_pass in Hmin. apply major_fail_is_fail in Hmaj. congruence.
  - split; [lia |]. split; [lia |].
    induction data as [| entry data IH]; [cbn; lia |].
    rewrite !filter_cons. cbn [length].
    destruct (is_minor_fail entry.2) eqn:Emin, (is_major_fail entry.2) eqn:Emaj.
    + apply minor_fail_is_pass in Emin. apply major_fail_is_fail in Emaj. congruence.
    + rewrite decide_True by reflexivity. rewrite decide_False by discriminate.
      cbn [length]. lia.
    + rewrite decide_False by discriminate. rewrite decide_True by reflexivity.
      cbn [length]. lia.
    + rewrite !decide_False by discriminate. lia.
Qed.

(** The two tables list the same limits for the same four categories. *)
Lemma protocols_data_limits (name : string) (cat : ProtocolData) :
  (name, cat) ∈ protocols_data ->
  exists limit,
    acr_limits !! name = Some limit /\
    ref limit = acr_ref cat /\ pf limit = acr_pf cat /\ ref limit < pf limit.
Proof.
  unfold protocols_data. rewrite !elem_of_cons, elem_of_nil.
  intros [H | [H | [H | [H | []]]]]; inversion H; subst;
    eexists; (split; [vm_compute; reflexivity |]); repeat split.
Qed.

(** X11. The protocol review and the dosimetry page judge a CTDI value of
    a category against the same limits: every category of the review has
    an entry in the dosimetry limits, and for any value the review marks
    the category Fail exactly when dosimetry classifies the value as Major
    Fail, and counts it as a minor fail exactly when dosimetry classifies
    it as Minor. *)
Theorem protocol_review_agrees_with_dosimetry (name : string) (cat : ProtocolData) (w : Q) :
  (name, cat) ∈ protocols_data ->
  exists limit,
    acr_limits !! name = Some limit /\
    (protocol_status (with_ctdi cat w) = Fail <->
       dosimetry_status w limit = MajorFailAboveLimit) /\
    (is_minor_fail (with_ctdi cat w) = true <->
       dosimetry_status w limit = MinorAboveReference) /\
    (protocol_status (with_ctdi cat w) = Pass /\ is_minor_fail (with_ctdi cat w) = false <->
       dosimetry_status w limit = PassBelowReference).
Proof.
  intros Hin.
  destruct (protocols_data_limits name cat Hin) as (limit & Hlim & Href & Hpf & Hlt).
  exists limit. split; [exact Hlim |].
  destruct (dosimetry_status_spec w limit Hlt) as (Hpass & Hminor & Hmajor).
  rewrite Hpass, Hminor, Hmajor, Href, Hpf.
  unfold protocol_status, is_minor_fail, with_ctdi. cbn [pd_ctdi acr_pf acr_ref].
  rewrite <- not_true_iff_false, andb_true_iff, py_lt_true, py_le_true.
  rewrite Href, Hpf in Hlt.
  split; [| split].
  - py_case; split; intros; try reflexivity; try discriminate; lra.
  - tauto.
  - py_case; split.
    + intros [_ H]. apply Qnot_lt_le. tauto.
    + intros H. split; [reflexivity |]. intros [H1 _]. lra.
    + intros [H _]. discriminate.
    + intros H. lra.
Qed.

(** The theorem at the adult head category and a value of 78 mGy. *)
Lemma protocol_review_agrees_with_dosimetry_witness :
  exists limit,
    acr_limits !! "Adult Head"%string = Some limit /\
    (protocol_status
       (with_ctdi {| pd_protocol := "CT Head wo"; wed_cm := 18; pd_ctdi := 62.03;
                     emas := 272.9; rotation_s := 0.6; pitch := Some 0.938;
                     acr_ref := 75; acr_pf := 80 |} 78) = Fail <->
       dosimetry_status 78 limit = MajorFailAboveLimit) /\
    (is_minor_fail
       (with_ctdi {| pd_protocol := "CT Head wo"; wed_cm := 18; pd_ctdi := 62.03;
                     emas := 272.9; rotation_s := 0.6; pitch := Some 0.938;
                     acr_ref := 75; acr_pf := 80 |} 78) = true <->
       dosimetry_status 78 limit = MinorAboveReference) /\
    (protocol_status
       (with_ctdi {| pd_protocol := "CT Head wo"; wed_cm := 18; pd_ctdi := 62.03;
                     emas := 272.9; rotation_s := 0.6; pitch := Some 0.938;
                     acr_ref := 75; acr_pf := 80 |} 78) = Pass /\
     is_minor_fail
       (with_ctdi {| pd_protocol := "CT Head wo"; wed_cm := 18; pd_ctdi := 62.03;
                     emas := 272.9; rotation_s := 0.6; pitch := Some 0.938;
                     acr_ref := 75; acr_pf := 80 |} 78) = false <->
       dosimetry_status 78 limit = PassBelowReference).
Proof.
  apply (protocol_review_agrees_with_dosimetry "Adult Head"
           {| pd_protocol := "CT Head wo"; wed_cm := 18; pd_ctdi := 62.03;
              emas := 272.9; rotation_s := 0.6; pitch := Some 0.938;
              acr_ref := 75; acr_pf := 80 |} 78).
  unfold protocols_data. apply elem_of_cons. right. apply list_elem_of_here.
Defined.

(** ** CT number accuracy: the passing intervals and the store *)

(** A reading against its expected value and tolerance, as an interval. *)
Lemma within_tolerance (measured expected_value tol : Q) :
  py_le (Qabs (measured - expected_value)) tol = true <->
  expected_value - tol <= measured <= expected_value + tol.
Proof.
  rewrite py_le_true, Qabs_Qle_condition. split; intros [H1 H2]; split; lra.
Qed.

(** The evaluation against [materials_ref], written out. *)
Lemma ct_number_accuracy_section_verdict (now : string) (i : CtNumberInput) (qc : QcData) :
  exists r overall,
    ct_number_accuracy_section now i qc =
      Ok (r, overall, store_ct_number qc (ct_protocol i) r) /\
    overall = (if c_overall_pass r then Pass else Fail) /\
    c_date r = now /\
    c_measurements r = measurements i /\
    map row_material (c_results r) = ["Air"; "Acrylic"; "Water"; "Bone"]%string /\
    (c_overall_pass r = true <->
       -1100 <= m_air i <= -900 /\ 80 <= m_acrylic i <= 160 /\
       -7 <= m_water i <= 7 /\ 750 <= m_bone i <= 950).
Proof.
  unfold ct_number_accuracy_section, measurements, ct_number_loop.
  unfold ct_number_row, dict_index.
  replace (materials_ref !! "Air"%string)
    with (Some {| expected := -1000; tolerance := 100 |}) by (vm_compute; reflexivity).
  replace (materials_ref !! "Acrylic"%string)
    with (Some {| expected := 120; tolerance := 40 |}) by (vm_compute; reflexivity).
  replace (materials_ref !! "Water"%string)
    with (Some {| expected := 0; tolerance := 7 |}) by (vm_compute; reflexivity).
  replace (materials_ref !! "Bone"%string)
    with (Some {| expected := 850; tolerance := 100 |}) by (vm_compute; reflexivity).
  cbn [mbind outcome_bind app].
  do 2 eexists. split; [reflexivity |].
  cbn [c_results c_overall_pass c_date c_measurements fst snd ct_number_entry_row map
       row_material expected tolerance].
  do 4 (split; [reflexivity |]).
  unfold ct_pass_criteria. cbn [String.eqb Ascii.eqb Bool.eqb].
  pose proof (within_tolerance (m_air i) (-1000) 100) as Ha.
  pose proof (within_tolerance (m_acrylic i) 120 40) as Hc.
  pose proof (within_tolerance (m_water i) 0 7) as Hw.
  pose proof (within_tolerance (m_bone i) 850 100) as Hb.
  destruct (py_le (Qabs (m_air i - -1000)) 100),
    (py_le (Qabs (m_acrylic i - 120)) 40),
    (py_le (Qabs (m_water i - 0)) 7),
    (py_le (Qabs (m_bone i - 850)) 100); cbn [negb];
    (split; [intros Ht; try discriminate Ht | intros (A & C & W & B)]).
  all: try (repeat split; lra).
  all: try reflexivity.
  all: exfalso.
  all: try (assert (F : false = true) by (apply Ha; lra); discriminate F).
  all: try (assert (F : false = true) by (apply Hc; lra); discriminate F).
  all: try (assert (F : false = true) by (apply Hw; lra); discriminate F).
  all: try (assert (F : false = true) by (apply Hb; lra); discriminate F).
Qed.

(** X12. The CT number evaluation always returns, with one row per
    material in the order air, acrylic, water, bone, and its overall
    result is Pass exactly when air reads between -1100 and -900 HU,
    acrylic between 80 and 160 HU, water between -7 and 7 HU and bone
    between 750 and 950 HU (limits included); otherwise it is Fail. *)
Theorem ct_number_passing_intervals (now : string) (i : CtNumberInput) (qc : QcData) :
  exists r overall qc',
    ct_number_accuracy_section now i qc = Ok (r, overall, qc') /\
    map row_material (c_results r) = ["Air"; "Acrylic"; "Water"; "Bone"]%string /\
    (overall = Pass \/ overall = Fail) /\
    (overall = Pass <->
       -1100 <= m_air i <= -900 /\ 80 <= m_acrylic i <= 160 /\
       -7 <= m_water i <= 7 /\ 750 <= m_bone i <= 950).
Proof.
  destruct (ct_number_accuracy_section_verdict now i qc)
    as (r & overall & Hrun & Hov & _ & _ & Hrows & Hpass).
  exists r, overall, (store_ct_number qc (ct_protocol i) r).
  split; [exact Hrun |]. split; [exact Hrows |].
  rewrite Hov. split; [destruct (c_overall_pass r); auto |].
  rewrite pass_or_fail_is_pass. exact Hpass.
Qed.

(** X13. The CT number evaluation writes its record, with the entered
    measurements, the verdict and the time, under the selected protocol,
    replacing whatever was stored there; the records of the other
    protocols and the dosimetry results are left as they were. *)
Theorem ct_number_store_update (now : string) (i : CtNumberInput) (qc : QcData) :
  exists r overall qc',
    ct_number_accuracy_section now i qc = Ok (r, overall, qc') /\
    stored_ct_number qc' (ct_protocol i) = Some r /\
    c_measurements r = measurements i /\
    (c_overall_pass r = true <-> overall = Pass) /\
    c_date r = now /\
    (forall other, other <> ct_protocol i ->
       stored_ct_number qc' other = stored_ct_number qc other) /\
    (forall protocol, stored_dosimetry qc' protocol = stored_dosimetry qc protocol) /\
    (1 <= sections_completed qc' <= 2)%Z.
Proof.
  destruct (ct_number_accuracy_section_verdict now i qc)
    as (r & overall & Hrun & Hov & Hdate & Hmeas & _ & _).
  exists r, overall, (store_ct_number qc (ct_protocol i) r).
  split; [exact Hrun |].
  unfold stored_ct_number, stored_dosimetry, sections_completed, store_ct_number.
  cbn [dosimetry_results ct_number_results].
  split; [apply lookup_insert_eq |]. split; [exact Hmeas |].
  split; [rewrite Hov; symmetry; apply pass_or_fail_is_pass |].
  split; [exact Hdate |]. split.
  - intros other Hother. rewrite lookup_insert_ne by congruence.
    destruct (ct_number_results qc); [reflexivity | apply lookup_empty].
  - split; [reflexivity |]. destruct (dosimetry_results qc); lia.
Qed.

(** ** Low contrast resolution: the criterion without the division *)

(** The requirement is 1.0, 0.7 or 0.4 for every protocol name. *)
Lemma cnr_required_values (protocol : string) :
  cnr_required_of protocol = 1.0 \/ cnr_required_of protocol = 0.7 \/
  cnr_required_of protocol = 0.4.
Proof.
  unfold cnr_required_of, dict_get, cnr_criteria. cbn [list_to_map foldr fst snd].
  rewrite !lookup_insert, lookup_empty.
  repeat (destruct (decide _); [tauto |]). tauto.
Qed.

Lemma cnr_required_positive (protocol : string) : 0 < cnr_required_of protocol.
Proof.
  destruct (cnr_required_values protocol) as [-> | [-> | ->]]; reflexivity.
Qed.

(** X14. A low-contrast evaluation without contrast or without a usable
    noise figure never passes: with a noise standard deviation of 0 or
    less the CNR is taken as 0 and the result is Fail, and with a signal
    that does not exceed the noise value the result is Fail, for every
    protocol name and every set of visible objects.  A Pass therefore
    needs the 6 mm / 0.3 % object visible, a positive noise standard
    deviation and a signal above the noise value. *)
Theorem lcr_fails_without_contrast (i : LcrInput) :
  exists r,
    low_contrast_resolution_section i = Ok r /\
    0 < cnr_required r /\
    (noise_sd i <= 0 -> cnr r = 0 /\ lcr_overall_status r = Fail) /\
    (signal i <= noise i -> lcr_overall_status r = Fail) /\
    (lcr_overall_status r = Pass ->
       v6mm_03 (visibility i) = true /\ 0 < noise_sd i /\ noise i < signal i).
Proof.
  destruct (low_contrast_resolution_section_total i)
    as (r & Hrun & Hcnr & Hreq & Hmin & Hpass & Hov & Hst).
  exists r. split; [exact Hrun |].
  pose proof (cnr_required_positive (lcr_protocol i)) as Hpos.
  rewrite Hst, Hov, Hmin, Hpass, Hreq. clear Hst Hov Hmin Hpass Hreq.
  split; [exact Hpos |].
  unfold cnr_of in Hcnr.
  destruct (py_gt (noise_sd i) 0) eqn:Hsd.
  - apply py_gt_true in Hsd. rewrite py_div_nonzero in Hcnr by lra.
    injection Hcnr as <-.
    assert (Hneg : signal i <= noise i ->
              py_ge ((signal i - noise i) / noise_sd i) (cnr_required_of (lcr_protocol i))
              = false).
    { intros Hle. apply py_ge_false.
      assert (Hq : (signal i - noise i) / noise_sd i <= 0)
        by (apply Qdiv_le_iff; [exact Hsd | lra]).
      lra. }
    split; [intros H; lra |]. split.
    + intros Hle. rewrite (Hneg Hle), andb_false_r. reflexivity.
    + intros Hp. apply pass_or_fail_is_pass, andb_true_iff in Hp as [Hv Hge].
      split; [exact Hv |]. split; [exact Hsd |].
      apply Qnot_le_lt. intros Hle. rewrite (Hneg Hle) in Hge. discriminate.
  - apply py_gt_false in Hsd. injection Hcnr as <-.
    assert (Hge : py_ge 0 (cnr_required_of (lcr_protocol i)) = false)
      by (apply py_ge_false; exact Hpos).
    rewrite Hge, andb_false_r.
    split; [intros _; split; reflexivity |].
    split; [intros _; reflexivity | discriminate].
Qed.

Lemma py_sum_bool_three (a b c : bool) :
  py_sum_bool [a; b; c] = (Z.b2z a + Z.b2z b + Z.b2z c)%Z.
Proof. now destruct a, b, c. Qed.

Lemma b2z_range (b : bool) : (0 <= Z.b2z b <= 1)%Z /\ (Z.b2z b = 1%Z <-> b = true).
Proof. destruct b; cbn; split; try lia; split; intros; try reflexivity; discriminate. Qed.

(** X15. The displayed counts of visible objects: each size shows between
    0 and 3 objects, the total is their sum and lies between 0 and 12, it
    is 12 only when all twelve boxes are ticked and 0 only when none is,
    and it is at least 1 whenever the minimum requirement is met. *)
Theorem lcr_visible_counts (i : LcrInput) :
  exists r,
    low_contrast_resolution_section i = Ok r /\
    (0 <= objects_6mm r <= 3)%Z /\ (0 <= objects_4mm r <= 3)%Z /\
    (0 <= objects_3mm r <= 3)%Z /\ (0 <= objects_2mm r <= 3)%Z /\
    total_visible r = (objects_6mm r + objects_4mm r + objects_3mm r + objects_2mm r)%Z /\
    (0 <= total_visible r <= 12)%Z /\
    (total_visible r = 12%Z <-> visibility i = all_visible) /\
    (minimum_met r = true -> (1 <= total_visible r)%Z).
Proof.
  unfold low_contrast_resolution_section.
  destruct (cnr_of_total (signal i) (noise i) (noise_sd i)) as (q & Hq & _).
  rewrite Hq. cbn [mbind outcome_bind].
  eexists. split; [reflexivity |].
  cbn [objects_6mm objects_4mm objects_3mm objects_2mm total_visible minimum_met].
  rewrite !py_sum_bool_three.
  destruct (visibility i) as [a1 a2 a3 b1 b2 b3 c1 c2 c3 d1 d2 d3].
  cbn [v6mm_03 v6mm_05 v6mm_10 v4mm_03 v4mm_05 v4mm_10
       v3mm_03 v3mm_05 v3mm_10 v2mm_03 v2mm_05 v2mm_10].
  pose proof (b2z_range a1) as [A1 A1']. pose proof (b2z_range a2) as [A2 A2'].
  pose proof (b2z_range a3) as [A3 A3']. pose proof (b2z_range b1) as [B1 B1'].
  pose proof (b2z_range b2) as [B2 B2']. pose proof (b2z_range b3) as [B3 B3'].
  pose proof (b2z_range c1) as [C1 C1']. pose proof (b2z_range c2) as [C2 C2'].
  pose proof (b2z_range c3) as [C3 C3']. pose proof (b2z_range d1) as [D1 D1'].
  pose proof (b2z_range d2) as [D2 D2']. pose proof (b2z_range d3) as [D3 D3'].
  repeat (split; [lia |]).
  split.
  - split.
    + intros Htot.
      assert (Z.b2z a1 = 1 /\ Z.b2z a2 = 1 /\ Z.b2z a3 = 1 /\ Z.b2z b1 = 1 /\
              Z.b2z b2 = 1 /\ Z.b2z b3 = 1 /\ Z.b2z c1 = 1 /\ Z.b2z c2 = 1 /\
              Z.b2z c3 = 1 /\ Z.b2z d1 = 1 /\ Z.b2z d2 = 1 /\ Z.b2z d3 = 1)%Z
        as (E1 & E2 & E3 & E4 & E5 & E6 & E7 & E8 & E9 & E10 & E11 & E12) by lia.
      apply A1' in E1. apply A2' in E2. apply A3' in E3. apply B1' in E4.
      apply B2' in E5. apply B3' in E6. apply C1' in E7. apply C2' in E8.
      apply C3' in E9. apply D1' in E10. apply D2' in E11. apply D3' in E12.
      subst. reflexivity.
    + intros H. inversion H. reflexivity.
  - intros ->. cbn. lia.
Qed.

(** ** Spatial resolution: the criterion per protocol *)

(** The required resolution is 8 lp/cm for the high resolution chest
    protocol and 6 lp/cm for every other protocol name. *)
Lemma required_resolution_values (protocol : string) :
  required_resolution_of protocol =
  (if String.eqb protocol "High Resolution Chest" then 8.0 else 6.0).
Proof.
  unfold required_resolution_of, dict_get, criteria_map. cbn [list_to_map foldr fst snd].
  rewrite !lookup_insert, lookup_empty.
  destruct (String.eqb_spec protocol "High Resolution Chest") as [-> | Hne].
  - reflexivity.
  - repeat case_decide; try reflexivity; congruence.
Qed.

(** X16. The spatial resolution result is Pass exactly when the measured
    resolution reaches the required one (8 lp/cm for the high resolution
    chest protocol, 6 lp/cm for every other protocol name) and lies within
    1 lp/cm of the baseline, below or above it: a resolution more than
    1 lp/cm better than the baseline is a Fail too.  The pattern
    visibility never changes the result. *)
Theorem spatial_resolution_criterion (i : SpatialInput) :
  required_resolution (spatial_resolution_section i) =
    (if String.eqb (sr_protocol i) "High Resolution Chest" then 8.0 else 6.0) /\
  (sr_status (spatial_resolution_section i) = Pass <->
     required_resolution (spatial_resolution_section i) <= measured_resolution i /\
     baseline_resolution i - 1 <= measured_resolution i <= baseline_resolution i + 1) /\
  (baseline_resolution i + 1 < measured_resolution i ->
     sr_status (spatial_resolution_section i) = Fail) /\
  (forall quality,
     sr_status (spatial_resolution_section
                  {| sr_protocol := sr_protocol i;
                     measured_resolution := measured_resolution i;
                     baseline_resolution := baseline_resolution i;
                     visual_quality := quality |}) =
     sr_status (spatial_resolution_section i)).
Proof.
  unfold spatial_resolution_section.
  cbn [required_resolution sr_status sr_protocol measured_resolution baseline_resolution].
  split; [apply required_resolution_values |].
  assert (Hbase : py_le (Qabs (measured_resolution i - baseline_resolution i)) 1.0 = true <->
                  baseline_resolution i - 1 <= measured_resolution i
                    <= baseline_resolution i + 1).
  { rewrite within_tolerance. split; intros [H1 H2]; split; lra. }
  split; [| split; [| reflexivity]].
  - rewrite pass_or_fail_is_pass, andb_true_iff, py_ge_true, Hbase. reflexivity.
  - intros H. apply pass_or_fail_is_fail. apply andb_false_iff. right.
    apply not_true_iff_false. rewrite Hbase. intros [_ H2]. lra.
Qed.

(** ** CT number uniformity: the criterion, offsets and the range *)

(** The evaluation written out: the folds of [max] and [min] over the
    four differences and the five ROI values. *)
Lemma ct_uniformity_section_result (i : UniformityInput) :
  exists r,
    ct_uniformity_section i = Ok r /\
    max_difference r =
      Qmax (Qmax (Qmax (Qabs (top_roi i - center_roi i))
                       (Qabs (bottom_roi i - center_roi i)))
                 (Qabs (left_roi i - center_roi i)))
           (Qabs (right_roi i - center_roi i)) /\
    roi_max r =
      Qmax (Qmax (Qmax (Qmax (center_roi i) (top_roi i)) (bottom_roi i)) (left_roi i))
           (right_roi i) /\
    roi_min r =
      Qmin (Qmin (Qmin (Qmin (center_roi i) (top_roi i)) (bottom_roi i)) (left_roi i))
           (right_roi i) /\
    non_uniformity_of (roi_max r) (roi_min r) = Ok (non_uniformity r) /\
    uniformity_pass r = py_le (max_difference r) 5.0 /\
    uniformity_status r = (if uniformity_pass r then Pass else Fail) /\
    map u_position (uniformity_rows r) = ["Top"; "Bottom"; "Left"; "Right"]%string /\
    map u_roi_value (uniformity_rows r) =
      [top_roi i; bottom_roi i; left_roi i; right_roi i] /\
    map u_status (uniformity_rows r) =
      map (fun roi => if py_le (Qabs (roi - center_roi i)) 5.0 then Pass else Fail)
          [top_roi i; bottom_roi i; left_roi i; right_roi i].
Proof.
  unfold ct_uniformity_section, py_max, py_min.
  cbn [map mbind outcome_bind fold_left].
  match goal with
  | |- context [non_uniformity_of ?a ?b] =>
      destruct (non_uniformity_of_total a b) as (q & Hq & _); rewrite Hq
  end.
  cbn [mbind outcome_bind].
  eexists. split; [reflexivity |].
  cbn [max_difference roi_max roi_min non_uniformity uniformity_pass uniformity_status
       uniformity_rows].
  do 3 (split; [reflexivity |]). split; [exact Hq |].
  repeat split.
Qed.

Ltac solve_elem :=
  repeat first [apply list_elem_of_here | apply list_elem_of_further].

Lemma Qmax_is_either (a b : Q) : Qmax a b = a \/ Qmax a b = b.
Proof. unfold Qmax, GenericMinMax.gmax. destruct (a ?= b); auto. Qed.

(** The rows of the uniformity table with their differences. *)
Lemma ct_uniformity_section_rows (i : UniformityInput) :
  exists r,
    ct_uniformity_section i = Ok r /\
    max_difference r =
      Qmax (Qmax (Qmax (Qabs (top_roi i - center_roi i))
                       (Qabs (bottom_roi i - center_roi i)))
                 (Qabs (left_roi i - center_roi i)))
           (Qabs (right_roi i - center_roi i)) /\
    uniformity_status r = (if py_le (max_difference r) 5.0 then Pass else Fail) /\
    map u_position (uniformity_rows r) = ["Top"; "Bottom"; "Left"; "Right"]%string /\
    map u_diff (uniformity_rows r) =
      [Qabs (top_roi i - center_roi i); Qabs (bottom_roi i - center_roi i);
       Qabs (left_roi i - center_roi i); Qabs (right_roi i - center_roi i)] /\
    Forall (fun row => u_status row = (if py_le (u_diff row) 5.0 then Pass else Fail))
      (uniformity_rows r).
Proof.
  unfold ct_uniformity_section, py_max, py_min.
  cbn [map mbind outcome_bind fold_left].
  match goal with
  | |- context [non_uniformity_of ?a ?b] =>
      destruct (non_uniformity_of_total a b) as (q & Hq & _); rewrite Hq
  end.
  cbn [mbind outcome_bind].
  eexists. split; [reflexivity |].
  cbn [max_difference uniformity_pass uniformity_status uniformity_rows zip zip_with map
       u_position u_diff].
  do 4 (split; [reflexivity |]).
  repeat (apply Forall_cons; split; [reflexivity |]). apply Forall_nil. exact I.
Qed.

(** X17. The uniformity banner agrees with the table under it: the
    overall result is Pass exactly when the rows Top, Bottom, Left and
    Right are all Pass, and Fail otherwise.  Each row is Pass exactly when
    its own difference from the centre, as computed and before it is
    formatted to one decimal, is at most 5 HU, and the maximum difference
    is one of the four row differences and at least as large as each of
    them. *)
Theorem uniformity_banner_agrees_with_rows (i : UniformityInput) :
  exists r,
    ct_uniformity_section i = Ok r /\
    map u_position (uniformity_rows r) = ["Top"; "Bottom"; "Left"; "Right"]%string /\
    (uniformity_status r = Pass \/ uniformity_status r = Fail) /\
    (uniformity_status r = Pass <->
       Forall (fun row => u_status row = Pass) (uniformity_rows r)) /\
    Forall (fun row => u_status row = Pass <-> u_diff row <= 5) (uniformity_rows r) /\
    Forall (fun row => u_diff row <= max_difference r) (uniformity_rows r) /\
    max_difference r ∈ map u_diff (uniformity_rows r) /\
    (uniformity_status r = Pass <-> max_difference r <= 5).
Proof.
  destruct (ct_uniformity_section_rows i) as (r & Hrun & Hmax & Hst & Hpos & Hdiff & Hrows).
  exists r. split; [exact Hrun |]. split; [exact Hpos |].
  split; [rewrite Hst; destruct (py_le (max_difference r) 5.0); auto |].
  assert (Hfive : forall d, py_le d 5.0 = true <-> d <= 5).
  { intros d. rewrite py_le_true. split; intros; lra. }
  assert (Hrow : Forall (fun row => u_status row = Pass <-> u_diff row <= 5)
                   (uniformity_rows r)).
  { eapply Forall_impl; [exact Hrows |]. cbn beta. intros row ->.
    rewrite pass_or_fail_is_pass. apply Hfive. }
  assert (Hle : Forall (fun d => d <= max_difference r) (map u_diff (uniformity_rows r))).
  { rewrite Hdiff, Hmax. assert (H : max_difference r <= max_difference r) by apply Qle_refl.
    rewrite Hmax in H. rewrite !Q.max_lub_iff in H.
    repeat (apply Forall_cons; split; [tauto |]). apply Forall_nil. exact I. }
  assert (Hpassmax : uniformity_status r = Pass <-> max_difference r <= 5).
  { rewrite Hst, pass_or_fail_is_pass. apply Hfive. }
  split; [| split; [exact Hrow |
            split; [apply (Forall_fmap u_diff (fun d => d <= max_difference r)); exact Hle |
            split; [| exact Hpassmax]]]].
  - rewrite Hpassmax. split.
    + intros H5. apply Forall_forall. intros row Hin.
      apply (proj1 (Forall_forall _ _) Hrow row Hin).
      eapply Qle_trans; [| exact H5].
      apply (proj1 (Forall_forall _ _) Hle). apply list_elem_of_fmap.
      exists row. split; [reflexivity | exact Hin].
    + intros Hall.
      assert (Hd : Forall (fun d => d <= 5) (map u_diff (uniformity_rows r))).
      { apply (Forall_fmap u_diff (fun d => d <= 5)).
        apply Forall_forall. intros row Hin.
        apply (proj1 (Forall_forall _ _) Hrow row Hin),
              (proj1 (Forall_forall _ _) Hall row Hin). }
      rewrite Hdiff, !Forall_cons in Hd. rewrite Hmax, !Q.max_lub_iff. tauto.
  - rewrite Hdiff, Hmax.
    destruct (Qmax_is_either
                (Qmax (Qmax (Qabs (top_roi i - center_roi i))
                            (Qabs (bottom_roi i - center_roi i)))
                      (Qabs (left_roi i - center_roi i)))
                (Qabs (right_roi i - center_roi i))) as [-> | ->]; [| solve_elem].
    destruct (Qmax_is_either
                (Qmax (Qabs (top_roi i - center_roi i))
                      (Qabs (bottom_roi i - center_roi i)))
                (Qabs (left_roi i - center_roi i))) as [-> | ->]; [| solve_elem].
    destruct (Qmax_is_either (Qabs (top_roi i - center_roi i))
                (Qabs (bottom_roi i - center_roi i))) as [-> | ->]; solve_elem.
Qed.

Lemma Qabs_shift (a b offset : Q) : Qabs (a + offset - (b + offset)) == Qabs (a - b).
Proof. apply Qabs_wd. ring. Qed.

Lemma py_le_compat (a a' b b' : Q) : a == a' -> b == b' -> py_le a b = py_le a' b'.
Proof. intros Ha Hb. unfold py_le. now rewrite Ha, Hb. Qed.

(** X18. Raising all five ROI values by the same offset changes nothing
    in the verdict: the maximum difference, the status of every row and
    the overall result are the same, so that only the differences from
    the centre matter, not the CT numbers themselves. *)
Theorem uniformity_offset_invariant (i : UniformityInput) (offset : Q) :
  exists r r',
    ct_uniformity_section i = Ok r /\
    ct_uniformity_section (shift_rois i offset) = Ok r' /\
    max_difference r' == max_difference r /\
    uniformity_status r' = uniformity_status r /\
    map u_status (uniformity_rows r') = map u_status (uniformity_rows r) /\
    roi_max r' == roi_max r + offset /\
    roi_min r' == roi_min r + offset.
Proof.
  destruct (ct_uniformity_section_result i)
    as (r & Hrun & Hmax & HM & Hm & _ & Hpass & Hst & _ & _ & Hrows).
  destruct (ct_uniformity_section_result (shift_rois i offset))
    as (r' & Hrun' & Hmax' & HM' & Hm' & _ & Hpass' & Hst' & _ & _ & Hrows').
  exists r, r'. split; [exact Hrun |]. split; [exact Hrun' |].
  cbn [shift_rois center_roi top_roi bottom_roi left_roi right_roi] in *.
  assert (Hdiff : max_difference r' == max_difference r).
  { rewrite Hmax', Hmax, !Qabs_shift. reflexivity. }
  split; [exact Hdiff |].
  split; [rewrite Hst', Hst, Hpass', Hpass;
          rewrite (py_le_compat _ _ _ _ Hdiff (Qeq_refl 5.0)); reflexivity |].
  split.
  - rewrite Hrows', Hrows. cbn [map].
    rewrite !(py_le_compat _ _ _ _ (Qabs_shift _ _ _) (Qeq_refl 5.0)). reflexivity.
  - rewrite HM', HM, Hm', Hm. rewrite <- !Q.plus_max_distr_r, <- !Q.plus_min_distr_r.
    split; reflexivity.
Qed.

(** The largest and the smallest of the five ROI values. *)
Lemma max5_bounds (c t b l r : Q) :
  let M := Qmax (Qmax (Qmax (Qmax c t) b) l) r in
  c <= M /\ t <= M /\ b <= M /\ l <= M /\ r <= M.
Proof.
  intros M. assert (H : M <= M) by apply Qle_refl.
  unfold M at 1 in H. rewrite !Q.max_lub_iff in H. tauto.
Qed.

Lemma min5_bounds (c t b l r : Q) :
  let m := Qmin (Qmin (Qmin (Qmin c t) b) l) r in
  m <= c /\ m <= t /\ m <= b /\ m <= l /\ m <= r.
Proof.
  intros m. assert (H : m <= m) by apply Qle_refl.
  unfold m at 2 in H. rewrite !Q.min_glb_iff in H. tauto.
Qed.

(** X19. The centre value lies between the reported ROI minimum and
    maximum, and the maximum difference from the centre never exceeds the
    ROI range: a range of at most 5 HU always passes.  The non-uniformity
    percentage has the sign of max + min: it is not negative when the sum
    is positive, not positive when the sum is negative, and 0 when the sum
    is 0; it plays no part in the verdict. *)
Theorem uniformity_range_and_percentage (i : UniformityInput) :
  exists r,
    ct_uniformity_section i = Ok r /\
    roi_min r <= center_roi i <= roi_max r /\
    0 <= max_difference r <= roi_max r - roi_min r /\
    (roi_max r - roi_min r <= 5 -> uniformity_status r = Pass) /\
    (0 < roi_max r + roi_min r -> 0 <= non_uniformity r) /\
    (roi_max r + roi_min r < 0 -> non_uniformity r <= 0) /\
    (roi_max r + roi_min r == 0 -> non_uniformity r = 0).
Proof.
  destruct (ct_uniformity_section_result i)
    as (r & Hrun & Hmax & HM & Hm & Hnu & Hpass & Hst & _).
  exists r. split; [exact Hrun |].
  pose proof (max5_bounds (center_roi i) (top_roi i) (bottom_roi i) (left_roi i)
                (right_roi i)) as HB. cbv zeta in HB. rewrite <- HM in HB.
  pose proof (min5_bounds (center_roi i) (top_roi i) (bottom_roi i) (left_roi i)
                (right_roi i)) as Hb. cbv zeta in Hb. rewrite <- Hm in Hb.
  destruct HB as (M1 & M2 & M3 & M4 & M5). destruct Hb as (m1 & m2 & m3 & m4 & m5).
  assert (Hrange : 0 <= max_difference r <= roi_max r - roi_min r).
  { split.
    - rewrite Hmax. eapply Qle_trans; [apply Qabs_nonneg |].
      eapply Qle_trans; [| apply Q.le_max_l].
      eapply Qle_trans; [| apply Q.le_max_l]. apply Q.le_max_l.
    - rewrite Hmax, !Q.max_lub_iff, !Qabs_Qle_condition. repeat split; lra. }
  split; [split; assumption |]. split; [exact Hrange |].
  split.
  { intros H5. rewrite Hst, Hpass. apply pass_or_fail_is_pass, py_le_true. lra. }
  unfold non_uniformity_of in Hnu.
  destruct (py_ne (roi_max r + roi_min r) 0) eqn:Hne.
  - apply py_ne_true in Hne. rewrite py_div_nonzero in Hnu by assumption.
    cbn [mbind outcome_bind] in Hnu. injection Hnu as <-.
    pose proof (Qdiv_times (roi_max r - roi_min r) (roi_max r + roi_min r) Hne) as Hq.
    set (q := (roi_max r - roi_min r) / (roi_max r + roi_min r)) in *.
    split; [intros Hpos; nra |]. split; [intros Hneg; nra | intros H0; contradiction].
  - injection Hnu as <-. repeat split; intros; lra.
Qed.

(** ** Control chart: the two lists, the trend status and small series *)

(** With a standard deviation that is not negative no value is both
    outside the 3-sigma band and in a warning band. *)
Lemma masks_exclusive (m sd y : Q) :
  0 <= sd ->
  ~ (out_of_control_mask (m + 3 * sd) (m - 3 * sd) y = true /\
     warning_mask (m + 2 * sd) (m - 2 * sd) (m + 3 * sd) (m - 3 * sd) y = true).
Proof.
  intros Hsd. rewrite out_of_control_mask_true, warning_mask_true.
  intros [[HO | HO] [[H1 H2] | [H1 H2]]]; lra.
Qed.

(** X20. The out-of-control points and the warning points are taken from
    the data frame in its order, without repetition or reordering, and
    with a standard deviation that is not negative the two lists share no
    row: their lengths together never exceed the number of points. *)
Theorem control_chart_lists
    (series_std : list Q -> Q) (y : TrendRow -> Q) (df : list TrendRow) :
  0 <= series_std (map y df) ->
  sublist (out_of_control (control_chart series_std y df)) df /\
  sublist (warning_points (control_chart series_std y df)) df /\
  (length (out_of_control (control_chart series_std y df)) +
   length (warning_points (control_chart series_std y df)) <= length df)%nat.
Proof.
  intros Hsd. unfold control_chart. cbn [out_of_control warning_points].
  set (m := series_mean (map y df)). set (sd := series_std (map y df)) in *.
  split; [apply sublist_filter |]. split; [apply sublist_filter |].
  clearbody m sd.
  induction df as [| row df IH]; [cbn; lia |].
  rewrite !filter_cons. cbn [length].
  pose proof (masks_exclusive m sd (y row) Hsd) as Hex.
  repeat case_decide; cbn [length]; try lia. tauto.
Qed.

(** The theorem at the eleven-week series. *)
Lemma control_chart_lists_witness :
  sublist (out_of_control (control_chart boundary_std water_ct boundary_series))
    boundary_series /\
  sublist (warning_points (control_chart boundary_std water_ct boundary_series))
    boundary_series /\
  (length (out_of_control (control_chart boundary_std water_ct boundary_series)) +
   length (warning_points (control_chart boundary_std water_ct boundary_series))
   <= length boundary_series)%nat.
Proof.
  apply (control_chart_lists boundary_std water_ct boundary_series).
  vm_compute. discriminate.
Defined.

Lemma filter_is_nil {A : Type} (P : A -> Prop) `{forall x, Decision (P x)} (l : list A) :
  filter P l = [] <-> Forall (fun x => ~ P x) l.
Proof.
  induction l as [| x l IH]; [rewrite filter_nil; split; auto |].
  rewrite filter_cons, Forall_cons. case_decide.
  - split; [discriminate | tauto].
  - rewrite IH. tauto.
Qed.

(** X21. The trend status is Stable exactly when every point lies within
    the 3-sigma band, limits included, and Investigate as soon as one
    point lies strictly outside it; the warning points play no part. *)
Theorem trend_status_stable_iff
    (series_std : list Q -> Q) (y : TrendRow -> Q) (df : list TrendRow) :
  (trend_status (control_chart series_std y df) = Stable <->
     Forall (fun row => lcl_3sigma (control_chart series_std y df) <= y row
                          <= ucl_3sigma (control_chart series_std y df)) df) /\
  (trend_status (control_chart series_std y df) = Investigate <->
     Exists (fun row => y row < lcl_3sigma (control_chart series_std y df) \/
                        ucl_3sigma (control_chart series_std y df) < y row) df) /\
  (trend_status (control_chart series_std y df) = Stable <->
     out_of_control (control_chart series_std y df) = []).
Proof.
  unfold control_chart.
  cbn [trend_status out_of_control lcl_3sigma ucl_3sigma].
  set (m := series_mean (map y df)). set (sd := series_std (map y df)).
  set (out := filter (fun row => out_of_control_mask (m + 3 * sd) (m - 3 * sd) (y row) = true)
                df).
  assert (Hnil : out = [] <->
            Forall (fun row => m - 3 * sd <= y row <= m + 3 * sd) df).
  { unfold out. rewrite filter_is_nil.
    apply Forall_iff. intros row. rewrite out_of_control_mask_true.
    split; [intros H; split; apply Qnot_lt_le; tauto | intros [H1 H2] [H | H]; lra]. }
  assert (Hst : (if (length out =? 0)%nat then Stable else Investigate) = Stable <->
                out = []).
  { destruct out; cbn; split; intros; try reflexivity; discriminate. }
  split; [rewrite Hst; exact Hnil |]. split; [| exact Hst].
  assert (Hinv : (if (length out =? 0)%nat then Stable else Investigate) = Investigate <->
                 out <> []).
  { destruct out; cbn; split; intros; try discriminate; try congruence; reflexivity. }
  rewrite Hinv. split.
  - intros Hne. destruct out as [| row rest] eqn:E; [congruence |].
    assert (Hin : row ∈ out) by (rewrite E; apply list_elem_of_here).
    unfold out in Hin. apply list_elem_of_filter in Hin as [Hmask Hin].
    apply out_of_control_mask_true in Hmask.
    apply Exists_exists. exists row. split; [exact Hin | tauto].
  - intros Hex Hempty. apply Hnil in Hempty.
    apply Exists_exists in Hex as (row & Hin & Hrow).
    rewrite Forall_forall in Hempty. specialize (Hempty row Hin). destruct Hrow; lra.
Qed.

Lemma series_sum_acc (ys : list Q) (acc : Q) :
  fold_left Qplus ys acc == acc + series_sum ys.
Proof.
  unfold series_sum. revert acc.
  induction ys as [| v ys IH]; intros acc; cbn [fold_left]; [lra |].
  rewrite (IH (acc + v)), (IH (0 + v)). lra.
Qed.

Lemma series_sum_cons (v : Q) (ys : list Q) : series_sum (v :: ys) == v + series_sum ys.
Proof. unfold series_sum at 1. cbn [fold_left]. rewrite series_sum_acc. lra. Qed.

(** Each out-of-control point weighs more than 9 s^2 in the sum of
    squared deviations. *)
Lemma out_of_control_weight (m sd : Q) (y : TrendRow -> Q) (df : list TrendRow) :
  0 <= sd ->
  inject_Z (Z.of_nat (length (filter
     (fun row => out_of_control_mask (m + 3 * sd) (m - 3 * sd) (y row) = true) df)))
    * (9 * (sd * sd))
  <= series_sum (map (fun v => (v - m) * (v - m)) (map y df)) /\
  (filter (fun row => out_of_control_mask (m + 3 * sd) (m - 3 * sd) (y row) = true) df <> [] ->
   inject_Z (Z.of_nat (length (filter
     (fun row => out_of_control_mask (m + 3 * sd) (m - 3 * sd) (y row) = true) df)))
    * (9 * (sd * sd))
   < series_sum (map (fun v => (v - m) * (v - m)) (map y df))).
Proof.
  intros Hsd. induction df as [| row df [IH1 IH2]].
  - rewrite filter_nil. cbn [length map]. change (inject_Z (Z.of_nat 0)) with 0.
    split; [unfold series_sum; cbn [fold_left]; lra | congruence].
  - cbn [map]. rewrite series_sum_cons, filter_cons.
    set (out := filter _ df) in *.
    set (D := series_sum (map (fun v => (v - m) * (v - m)) (map y df))) in *.
    set (k := inject_Z (Z.of_nat (length out))) in *.
    set (d := y row - m).
    assert (Hsq : 0 <= d * d) by (clear; nra).
    case_decide as Hmask.
    + apply out_of_control_mask_true in Hmask.
      assert (Hbig : 9 * (sd * sd) < d * d).
      { assert (Hprod : 0 < (d - 3 * sd) * (d + 3 * sd) \/
                        0 < (3 * sd - d) * (- d - 3 * sd)).
        { unfold d. destruct Hmask as [Hm | Hm];
            [left | right]; apply Qmult_lt_0_compat; lra. }
        destruct Hprod; lra. }
      cbn [length]. rewrite Nat2Z.inj_succ, <- Z.add_1_r, inject_Z_plus.
      change (inject_Z 1) with 1. fold k.
      clearbody d D k. split.
      * lra.
      * intros _. lra.
    + fold k. clearbody d D k. split.
      * lra.
      * intros Hne. specialize (IH2 Hne). lra.
Qed.

Lemma series_sum_squares_nonneg (m : Q) (ys : list Q) :
  0 <= series_sum (map (fun v => (v - m) * (v - m)) ys).
Proof.
  induction ys as [| v ys IH]; [unfold series_sum; cbn [map fold_left]; lra |].
  cbn [map]. rewrite series_sum_cons.
  set (d := v - m). set (D := series_sum _) in *.
  assert (Hsq : 0 <= d * d) by (clear; nra).
  clearbody d D. lra.
Qed.

(** The sample standard deviation is within the bound. *)
Lemma is_sample_std_lower_bound (ys : list Q) (s : Q) :
  is_sample_std ys s -> sample_std_lower_bound ys s.
Proof.
  intros [Hs Heq]. split; [exact Hs |]. rewrite Heq.
  pose proof (series_sum_squares_nonneg (series_mean ys) ys) as Hnn.
  set (D := series_sum _) in *. clearbody D. lra.
Qed.

(** X22. When the standard deviation of the chart is the sample standard
    deviation of the series, or any value not more than 5 % below it,
    out-of-control points are rare: k of them, k at least 1, need more
    than 8.1 k + 1 points in the series.  A series of 9 points or fewer
    therefore has no out-of-control point and its trend status is
    Stable, whatever its values. *)
Theorem control_chart_few_points_stable
    (series_std : list Q -> Q) (y : TrendRow -> Q) (df : list TrendRow) :
  sample_std_lower_bound (map y df) (series_std (map y df)) ->
  (out_of_control (control_chart series_std y df) = [] \/
   (81 * length (out_of_control (control_chart series_std y df)) + 10
    < 10 * length df)%nat) /\
  ((length df <= 9)%nat ->
   out_of_control (control_chart series_std y df) = [] /\
   trend_status (control_chart series_std y df) = Stable).
Proof.
  intros [Hsd Hvar].
  assert (Hmain :
    out_of_control (control_chart series_std y df) = [] \/
    (81 * length (out_of_control (control_chart series_std y df)) + 10
     < 10 * length df)%nat).
  { unfold control_chart. cbn [out_of_control].
    set (m := series_mean (map y df)) in *. set (sd := series_std (map y df)) in *.
    destruct (out_of_control_weight m sd y df Hsd) as [_ Hstrict].
    set (out := filter _ df) in *.
    destruct out as [| row rest] eqn:E; [now left |]. right.
    specialize (Hstrict ltac:(discriminate)).
    rewrite length_map in Hvar.
    set (k := Z.of_nat (length (row :: rest))) in *.
    set (n := Z.of_nat (length df)) in *.
    assert (Hq : inject_Z (81 * k) < inject_Z (10 * (n - 1))).
    { rewrite !inject_Z_mult. change (inject_Z 81) with 81. change (inject_Z 10) with 10.
      assert (Hs2 : 0 <= sd * sd) by (apply Qmult_le_0_compat; exact Hsd).
      set (a := inject_Z k) in *. set (b := inject_Z (n - 1)) in *.
      set (D := series_sum _) in *.
      apply Qnot_le_lt. intros Hle.
      set (v := sd * sd) in *. clearbody v a b D. clear - Hstrict Hs2 Hle Hvar. nra. }
    rewrite <- Zlt_Qlt in Hq. unfold k, n in Hq. lia. }
  split; [exact Hmain |].
  intros Hlen.
  assert (Hnil : out_of_control (control_chart series_std y df) = []).
  { destruct Hmain as [H | H]; [exact H |].
    destruct (out_of_control (control_chart series_std y df)); [reflexivity |].
    cbn [length] in H. lia. }
  split; [exact Hnil |].
  unfold control_chart in *. cbn [trend_status out_of_control] in *.
  rewrite Hnil. reflexivity.
Qed.

(** The theorem at the nine-week series, whose reading of 8 HU stays
    within the limits of -9 and 9, and at the sixteen-week series, whose
    reading of 15 HU is the one out-of-control point. *)
Lemma control_chart_few_points_stable_witness :
  ((length outlier_series <= 9)%nat /\
   out_of_control (control_chart outlier_std water_ct outlier_series) = [] /\
   trend_status (control_chart outlier_std water_ct outlier_series) = Stable) /\
  (out_of_control (control_chart spike_std water_ct spike_series) = [trend_row 15] /\
   (81 * length (out_of_control (control_chart spike_std water_ct spike_series)) + 10
    < 10 * length spike_series)%nat).
Proof.
  split.
  - split; [vm_compute; lia |].
    apply (control_chart_few_points_stable outlier_std water_ct outlier_series).
    + split; [vm_compute; discriminate | vm_compute; discriminate].
    + vm_compute. lia.
  - split; [vm_compute; reflexivity |].
    destruct (control_chart_few_points_stable spike_std water_ct spike_series) as [[H | H] _].
    + split; [vm_compute; discriminate | vm_compute; discriminate].
    + vm_compute in H. discriminate H.
    + exact H.
Defined.

Lemma param_map_lookup (parameter : string) :
  param_map !! parameter =
  (if String.eqb parameter "Water CT Number" then Some "water_ct"
   else if String.eqb parameter "Image Noise" then Some "noise"
   else if String.eqb parameter "Head CTDI" then Some "ctdi_head"
   else if String.eqb parameter "Body CTDI" then Some "ctdi_body"
   else if String.eqb parameter "Uniformity" then Some "uniformity"
   else None)%string.
Proof.
  unfold param_map. cbn [list_to_map foldr fst snd].
  rewrite !lookup_insert, lookup_empty.
  repeat (match goal with
          | |- context [String.eqb parameter ?k] =>
              destruct (String.eqb_spec parameter k) as [-> | ?]; [reflexivity |]
          end).
  repeat case_decide; congruence.
Qed.

(** X23. Each of the five parameters of the trending page selects a
    column that the data frame has, so that the analysis returns the
    control chart of that column; any other parameter name raises
    [KeyError] for that name. *)
Theorem data_analysis_parameter
    (series_std : list Q -> Q) (df : list TrendRow) (parameter : string) :
  data_analysis_section series_std df "Water CT Number" =
    Ok (control_chart series_std water_ct df) /\
  data_analysis_section series_std df "Image Noise" =
    Ok (control_chart series_std t_noise df) /\
  data_analysis_section series_std df "Head CTDI" =
    Ok (control_chart series_std ctdi_head df) /\
  data_analysis_section series_std df "Body CTDI" =
    Ok (control_chart series_std ctdi_body df) /\
  data_analysis_section series_std df "Uniformity" =
    Ok (control_chart series_std t_uniformity df) /\
  (parameter ∉ ["Water CT Number"; "Image Noise"; "Head CTDI"; "Body CTDI";
                "Uniformity"]%string ->
   data_analysis_section series_std df parameter = Raise (KeyError parameter)) /\
  ((exists summary, data_analysis_section series_std df parameter = Ok summary) ->
   parameter ∈ ["Water CT Number"; "Image Noise"; "Head CTDI"; "Body CTDI";
                "Uniformity"]%string).
Proof.
  unfold data_analysis_section, dict_index.
  do 5 (split; [rewrite param_map_lookup; reflexivity |]).
  rewrite param_map_lookup.
  repeat (match goal with
          | |- context [String.eqb parameter ?k] =>
              destruct (String.eqb_spec parameter k) as [-> | ?];
              [split; [intros H; exfalso; apply H; set_solver | intros _; set_solver] |]
          end).
  split; [reflexivity |]. intros [summary H]. discriminate.
Qed.



(** ** Facility information and the sidebar *)

(** The twelve keys that the form writes. *)
Lemma facility_info_section_lookup (form : FacilityForm) (info : gmap string string)
    (key : string) :
  facility_info_section form info !! key =
  (if String.eqb key "survey_date" then Some (f_survey_date form)
   else if String.eqb key "inspector_num" then Some (f_inspector_num form)
   else if String.eqb key "physicist2" then Some (f_physicist2 form)
   else if String.eqb key "physicist1" then Some (f_physicist1 form)
   else if String.eqb key "install_date" then Some (f_install_date form)
   else if String.eqb key "serial" then Some (f_serial form)
   else if String.eqb key "model" then Some (f_model form)
   else if String.eqb key "manufacturer" then Some (f_manufacturer form)
   else if String.eqb key "xray_license" then Some (f_xray_license form)
   else if String.eqb key "location" then Some (f_location form)
   else if String.eqb key "address" then Some (f_address form)
   else if String.eqb key "facility" then Some (f_facility form)
   else info !! key)%string.
Proof.
  unfold facility_info_section. rewrite !lookup_insert.
  repeat (match goal with
          | |- context [String.eqb key ?k] =>
              destruct (String.eqb_spec key k) as [-> | ?]; [reflexivity |]
          end).
  repeat case_decide; congruence.
Qed.

(** X25. Saving the facility form writes its twelve values, which are
    read back unchanged, and leaves every other key of the scanner
    information as it was; saving the same form a second time changes
    nothing. *)
Theorem facility_info_saved (form : FacilityForm) (info : gmap string string) :
  map (fun key => facility_info_section form info !! key)
    ["facility"; "address"; "location"; "xray_license"; "manufacturer"; "model";
     "serial"; "install_date"; "physicist1"; "physicist2"; "inspector_num";
     "survey_date"]%string =
  map Some
    [f_facility form; f_address form; f_location form; f_xray_license form;
     f_manufacturer form; f_model form; f_serial form; f_install_date form;
     f_physicist1 form; f_physicist2 form; f_inspector_num form; f_survey_date form] /\
  (forall key,
     key ∉ ["facility"; "address"; "location"; "xray_license"; "manufacturer"; "model";
            "serial"; "install_date"; "physicist1"; "physicist2"; "inspector_num";
            "survey_date"]%string ->
     facility_info_section form info !! key = info !! key) /\
  facility_info_section form (facility_info_section form info) =
    facility_info_section form info.
Proof.
  split; [| split].
  - cbn [map]. rewrite !facility_info_section_lookup. reflexivity.
  - intros key Hkey. rewrite !not_elem_of_cons in Hkey.
    rewrite facility_info_section_lookup.
    repeat (match goal with
            | |- context [String.eqb key ?k] =>
                destruct (String.eqb_spec key k) as [-> | ?]; [exfalso; tauto |]
            end).
    reflexivity.
  - apply map_eq. intros key. rewrite !facility_info_section_lookup.
    repeat (match goal with
            | |- context [String.eqb key ?k] =>
                destruct (String.eqb_spec key k) as [-> | ?]; [reflexivity |]
            end).
    reflexivity.
Qed.

(** X26. Whatever forms have been saved since the start of the session,
    the sidebar finds the five values it displays (it never raises
    [KeyError]), and after at least one save it shows the values of the
    last saved form. *)
Theorem sidebar_after_saves (forms : list FacilityForm) :
  exists lines,
    sidebar_scanner_info (after_saves forms) = Ok lines /\
    length lines = 4%nat /\
    (forall earlier form, forms = earlier ++ [form] ->
       lines = [ ("**Facility:** " ++ f_facility form)%string;
                 ("**System:** " ++ f_manufacturer form ++ " " ++ f_model form)%string;
                 ("**Serial:** " ++ f_serial form)%string;
                 ("**Physicist:** " ++ f_physicist1 form)%string ]) /\
    (forms = [] ->
       lines = [ "**Facility:** University of Tennessee Medical Center";
                 "**System:** GE Brightspeed"; "**Serial:** 14285HM8";
                 "**Physicist:** D. Osborne" ]%string).
Proof.
  induction forms as [| last forms _] using rev_ind.
  - eexists. split; [vm_compute; reflexivity |]. split; [reflexivity |].
    split; [| reflexivity].
    intros earlier form H. destruct earlier; discriminate.
  - unfold after_saves. rewrite fold_left_app. cbn [fold_left].
    fold (after_saves forms).
    unfold sidebar_scanner_info, dict_index.
    rewrite !facility_info_section_lookup. cbn [String.eqb Ascii.eqb Bool.eqb].
    cbn [mbind outcome_bind].
    eexists. split; [reflexivity |]. split; [reflexivity |].
    split.
    + intros earlier form H. apply app_inj_tail in H as [_ ->]. reflexivity.
    + intros H. destruct forms; discriminate.
Qed.
